(** * Reminder scheduling of the to-do list manager ([first_to_do_list.py])

    A shallow embedding of the [TodoApp] class: the in-memory model
    [self.lists], the APScheduler job store behind [self.scheduler], the two
    widgets the reminder code reads or writes ([lists_widget]'s current item
    and the [reminder_info] label), and every method that touches a reminder.

    Conventions.
    - A Python [str] is a Rocq [string] holding its UTF-8 bytes.  The only
      character-level operation of the program, [replace(" ", "_")], acts
      on the byte 0x20, which occurs in UTF-8 only as the space character.
    - [self.lists] is a Python [dict]: insertion ordered, keys unique.  It is
      an association list, because [_schedule_existing_reminders] iterates it
      in order and the order decides which of two colliding jobs survives.
    - The job store of the scheduler is keyed by job id: a [gmap].
    - [datetime] and the scheduler are libraries: they are interfaces
      (type classes) here, with the in-memory job store as the instance the
      program runs on.
    - What the user sees (message boxes), what is sent to the notification
      sink and what is written to disk are recorded in an event log. *)

From Stdlib Require Import String Ascii List.
From stdpp Require Import base option list strings gmap.
Import ListNotations.
Local Open Scope string_scope.

(** ** Strings *)

Definition nl : string := String (ascii_of_nat 10) "".
Definition tab : string := String (ascii_of_nat 9) "".

(** [s.replace(" ", "_")] *)
Fixpoint replace_space (s : string) : string :=
  match s with
  | EmptyString => EmptyString
  | String c r =>
      String (if Ascii.eqb c " "%char then "_"%char else c) (replace_space r)
  end.

(** [sep.join(parts)] *)
Definition join (sep : string) (parts : list string) : string :=
  String.concat sep parts.

(** Python truthiness of a string: [if rem:] *)
Definition truthy (s : string) : bool :=
  match s with EmptyString => false | _ => true end.

(** ** The list store: [self.lists] *)

Record TaskList := mkTaskList { tasks : list string; reminder : string }.

Definition with_reminder (r : string) (d : TaskList) : TaskList :=
  mkTaskList (tasks d) r.
Definition with_tasks (ts : list string) (d : TaskList) : TaskList :=
  mkTaskList ts (reminder d).

Section Dict.
Context {V : Type}.

(** [d.get(k)] *)
Fixpoint dict_get (k : string) (d : list (string * V)) : option V :=
  match d with
  | [] => None
  | (k', v) :: r => if decide (k = k') then Some v else dict_get k r
  end.

(** [d[k] = v]: in place when the key is present, appended otherwise *)
Fixpoint dict_set (k : string) (v : V) (d : list (string * V))
  : list (string * V) :=
  match d with
  | [] => [(k, v)]
  | (k', v') :: r =>
      if decide (k = k') then (k, v) :: r else (k', v') :: dict_set k v r
  end.

(** [d.pop(k, None)], the dictionary that is left *)
Fixpoint dict_pop (k : string) (d : list (string * V)) : list (string * V) :=
  match d with
  | [] => []
  | (k', v') :: r =>
      if decide (k = k') then dict_pop k r else (k', v') :: dict_pop k r
  end.

(** [list(d.keys())] *)
Definition dict_keys (d : list (string * V)) : list string := map fst d.

(** [k in d] *)
Definition dict_mem (k : string) (d : list (string * V)) : bool :=
  match dict_get k d with Some _ => true | None => false end.
End Dict.

Abbreviation Store := (list (string * TaskList)).

(** ** Job identity *)

(** [TodoApp._job_id_for] *)
Definition _job_id_for (list_title : string) : string :=
  "reminder__" ++ replace_space list_title.

(** ** Library interfaces *)

(** Exceptions the program can meet. *)
Inductive exn :=
| ConflictingIdError
| JobLookupError
| KeyError
| IndexError
| TypeError
| ValueError
| OtherError.

(** [datetime.datetime]: [isoformat], [fromisoformat] ([None]: it raised
    [ValueError]) and the order ([None]: comparing a naive with an aware
    value raised [TypeError]). *)
Class Datetime (DT : Type) := {
  isoformat : DT -> string;
  fromisoformat : string -> option DT;
  dt_compare : DT -> DT -> option comparison
}.

(** A job of the scheduler: the [notify] closure, which captured
    [list_title], and the [run_date] of its date trigger. *)
Record Job (DT : Type) := mkJob { job_title : string; run_date : DT }.
Arguments mkJob {DT} _ _.
Arguments job_title {DT} _.
Arguments run_date {DT} _.

(** [BackgroundScheduler]: the three calls the program makes.  A call that
    raises leaves the scheduler as it was. *)
Class Scheduler (DT S : Type) := {
  get_job : S -> string -> exn + option (Job DT);
  remove_job : S -> string -> exn + S;
  add_job : S -> string -> Job DT -> exn + S
}.

(** The scheduler the program runs on: a running [BackgroundScheduler] over
    its default in-memory job store.  [add_job] raises [ConflictingIdError]
    on a used id, [remove_job] raises [JobLookupError] on an unknown one,
    [get_job] returns [None] on an unknown one. *)
Definition mem_get_job {DT} (s : gmap string (Job DT)) (id : string)
  : exn + option (Job DT) := inr (s !! id).
Definition mem_remove_job {DT} (s : gmap string (Job DT)) (id : string)
  : exn + gmap string (Job DT) :=
  match s !! id with
  | Some _ => inr (delete id s)
  | None => inl JobLookupError
  end.
Definition mem_add_job {DT} (s : gmap string (Job DT)) (id : string)
  (j : Job DT) : exn + gmap string (Job DT) :=
  match s !! id with
  | Some _ => inl ConflictingIdError
  | None => inr (<[id := j]> s)
  end.

#[export] Instance MemScheduler {DT} : Scheduler DT (gmap string (Job DT)) := {
  get_job := mem_get_job;
  remove_job := mem_remove_job;
  add_job := mem_add_job
}.

(** ** The application state *)

(** The message boxes the reminder code can show. *)
Inductive dialog (DT : Type) :=
| DlgLoadError
| DlgSaved
| DlgSaveError
| DlgExists
| DlgSelectFirst
| DlgRemoved (task : string)
| DlgSelectToRename
| DlgEmptyTitle
| DlgSelectToSchedule
| DlgInvalid
| DlgScheduled (title : string) (run_dt : DT)
| DlgNoReminder
| DlgCleared
| DlgDone (title : string).
Arguments DlgLoadError {DT}.
Arguments DlgSaved {DT}.
Arguments DlgSaveError {DT}.
Arguments DlgExists {DT}.
Arguments DlgSelectFirst {DT}.
Arguments DlgRemoved {DT} _.
Arguments DlgSelectToRename {DT}.
Arguments DlgEmptyTitle {DT}.
Arguments DlgSelectToSchedule {DT}.
Arguments DlgInvalid {DT}.
Arguments DlgScheduled {DT} _ _.
Arguments DlgNoReminder {DT}.
Arguments DlgCleared {DT}.
Arguments DlgDone {DT} _.

(** What leaves the program, oldest first. [Notification]: [Notify.send()]
    was called with this title and message, and [sent] tells whether it
    returned or raised.  [FileWrite]: [json.dump] of this snapshot to
    [DATA_FILE], and whether it went through.  [Uncaught]: an exception
    that left the method. *)
Inductive event (DT : Type) :=
| MessageBox (d : dialog DT)
| Notification (title message : string) (sent : bool)
| FileWrite (snapshot : Store) (ok : bool)
| Uncaught (e : exn).
Arguments MessageBox {DT} _.
Arguments Notification {DT} _ _ _.
Arguments FileWrite {DT} _ _.
Arguments Uncaught {DT} _.

(** The text of the [reminder_info] label: [""], ["No reminder set"],
    ["Reminder: " + strftime(...)] of a date, ["Reminder: (invalid)"]. *)
Inductive info (DT : Type) :=
| InfoBlank
| InfoNone
| InfoReminder (d : DT)
| InfoInvalid.
Arguments InfoBlank {DT}.
Arguments InfoNone {DT}.
Arguments InfoReminder {DT} _.
Arguments InfoInvalid {DT}.

(** What [DATA_FILE] holds when [_load_data] runs. *)
Inductive file :=
| Missing
| Content (st : Store)
| Malformed.

Record App (DT S : Type) := mkApp {
  lists : Store;
  scheduler : S;
  current : option string;
  reminder_info : info DT;
  log : list (event DT)
}.
Arguments mkApp {DT S} _ _ _ _ _.
Arguments lists {DT S} _.
Arguments scheduler {DT S} _.
Arguments current {DT S} _.
Arguments reminder_info {DT S} _.
Arguments log {DT S} _.

Section Program.
Context {DT S : Type} `{!Datetime DT} `{!Scheduler DT S}.

Local Abbreviation App := (App DT S).

Definition set_lists (l : Store) (s : App) : App :=
  mkApp l (scheduler s) (current s) (reminder_info s) (log s).
Definition set_scheduler (sch : S) (s : App) : App :=
  mkApp (lists s) sch (current s) (reminder_info s) (log s).
Definition set_current (c : option string) (s : App) : App :=
  mkApp (lists s) (scheduler s) c (reminder_info s) (log s).
Definition set_info (i : info DT) (s : App) : App :=
  mkApp (lists s) (scheduler s) (current s) i (log s).
Definition emit (e : event DT) (s : App) : App :=
  mkApp (lists s) (scheduler s) (current s) (reminder_info s) (log s ++ [e]).

(** [self.lists.get(title, {}).get("reminder", "")] *)
Definition reminder_of (title : string) (l : Store) : string :=
  match dict_get title l with Some d => reminder d | None => "" end.
(** [self.lists.get(title, {}).get("tasks", [])] *)
Definition tasks_of (title : string) (l : Store) : list string :=
  match dict_get title l with Some d => tasks d | None => [] end.

(** [scheduler.remove_job(id)] inside [try: ... except Exception: pass] *)
Definition try_remove_job (sch : S) (id : string) : S :=
  match remove_job sch id with inr sch' => sch' | inl _ => sch end.

(** *** Data management *)

Definition _save_data (write_ok : bool) (s : App) : App :=
  emit (MessageBox (if write_ok then DlgSaved else DlgSaveError))
    (emit (FileWrite (lists s) write_ok) s).

Definition _on_list_selected (s : App) : App :=
  match current s with
  | None => set_info InfoBlank s
  | Some title =>
      let rem := reminder_of title (lists s) in
      if truthy rem then
        match fromisoformat rem with
        | Some dtobj => set_info (InfoReminder dtobj) s
        | None => set_info InfoInvalid s
        end
      else set_info InfoNone s
  end.

(** [lists_widget.clear()] drops the selection, and the selection-changed
    signal runs [_on_list_selected]; the items added back are the keys of
    [self.lists]. *)
Definition _refresh_sidebar (s : App) : App :=
  match current s with
  | Some _ => _on_list_selected (set_current None s)
  | None => s
  end.

(** [items = findItems(title, MatchExactly); if items: setCurrentItem(items[0])] *)
Definition select_item (title : string) (s : App) : App :=
  if dict_mem title (lists s)
  then _on_list_selected (set_current (Some title) s)
  else s.

Definition _load_data (f : file) (s : App) : App :=
  match f with
  | Missing => set_lists [] s
  | Content st => _refresh_sidebar (set_lists st s)
  | Malformed =>
      _refresh_sidebar (set_lists [] (emit (MessageBox DlgLoadError) s))
  end.

(** *** List and task operations *)

(** [title], [ok]: what the input dialog returned. *)
Definition _create_list_dialog (title : string) (ok : bool) (s : App) : App :=
  if ok && truthy title then
    if dict_mem title (lists s) then emit (MessageBox DlgExists) s
    else
      select_item title
        (_refresh_sidebar
           (set_lists (dict_set title (mkTaskList [] "") (lists s)) s))
  else s.

(** [text]: [self.task_input.text().strip()]. *)
Definition _add_task_to_current_list (text : string) (s : App) : App :=
  match current s with
  | None => emit (MessageBox DlgSelectFirst) s
  | Some title =>
      if truthy text then
        match dict_get title (lists s) with
        | None => emit (Uncaught KeyError) s
        | Some d =>
            set_lists
              (dict_set title (with_tasks (tasks d ++ [text]) d) (lists s)) s
        end
      else s
  end.

(** [cur]: [self.tasks_widget.currentRow()]. *)
Definition _remove_selected_task (cur : Z) (s : App) : App :=
  if (cur <? 0)%Z then s else
  match current s with
  | None => s
  | Some title =>
      match dict_get title (lists s) with
      | None => emit (Uncaught KeyError) s
      | Some d =>
          match tasks d !! Z.to_nat cur with
          | None => emit (Uncaught IndexError) s
          | Some removed =>
              emit (MessageBox (DlgRemoved removed))
                (set_lists
                   (dict_set title
                      (with_tasks (delete (Z.to_nat cur) (tasks d)) d)
                      (lists s)) s)
          end
      end
  end.

(** *** Reminder scheduling *)

(** [TodoApp._add_notification_job].  The result is the scheduler after
    the call and the exception that left the method, if one did: only
    [ConflictingIdError] is caught around the first [add_job]. *)
Definition _add_notification_job (sch : S) (list_title : string)
  (run_dt : DT) : S * option exn :=
  let job_id := _job_id_for list_title in
  let sch1 :=
    match get_job sch job_id with
    | inr (Some _) => try_remove_job sch job_id
    | _ => sch
    end in
  let notify := mkJob list_title run_dt in
  match add_job sch1 job_id notify with
  | inr sch2 => (sch2, None)
  | inl ConflictingIdError =>
      match remove_job sch1 job_id with
      | inl _ => (sch1, None)
      | inr sch2 =>
          match add_job sch2 job_id notify with
          | inr sch3 => (sch3, None)
          | inl _ => (sch2, None)
          end
      end
  | inl e => (sch1, Some e)
  end.

(** [confirm]: the answer to the question box was [Yes]. *)
Definition _delete_selected_list (confirm : bool) (s : App) : App :=
  match current s with
  | None => s
  | Some title =>
      if negb confirm then s else
      let rem := reminder_of title (lists s) in
      let sch :=
        if truthy rem
        then try_remove_job (scheduler s) (_job_id_for title)
        else scheduler s in
      set_info InfoBlank
        (_refresh_sidebar
           (set_lists (dict_pop title (lists s)) (set_scheduler sch s)))
  end.

(** [new_title]: [self.title_edit.text().strip()]. *)
Definition _rename_current_list (new_title : string) (s : App) : App :=
  match current s with
  | None => emit (MessageBox DlgSelectToRename) s
  | Some old_title =>
      if negb (truthy new_title) then emit (MessageBox DlgEmptyTitle) s
      else if decide (new_title = old_title) then s
      else if dict_mem new_title (lists s) then emit (MessageBox DlgExists) s
      else
        match dict_get old_title (lists s) with
        | None => emit (Uncaught KeyError) s
        | Some d =>
            let lists' := dict_set new_title d (dict_pop old_title (lists s)) in
            let rem := reminder d in
            let sch :=
              if truthy rem then
                let job_id_old := _job_id_for old_title in
                match get_job (scheduler s) job_id_old with
                | inr (Some _) =>
                    match remove_job (scheduler s) job_id_old with
                    | inl _ => scheduler s
                    | inr sch1 =>
                        match fromisoformat rem with
                        | None => sch1
                        | Some run_dt =>
                            fst (_add_notification_job sch1 new_title run_dt)
                        end
                    end
                | _ => scheduler s
                end
              else scheduler s in
            select_item new_title
              (_refresh_sidebar (set_lists lists' (set_scheduler sch s)))
        end
  end.

(** The title and the message of the notification for [list_title], from
    the tasks the store holds now. *)
Definition notification_title (list_title : string) : string :=
  "Reminder — " ++ list_title.
Definition notification_message (list_title : string) (l : Store) : string :=
  "You scheduled a reminder for '" ++ list_title ++ "'." ++ nl
    ++ "Tasks:" ++ nl
    ++ join nl (map (fun t => "- " ++ t) (take 10 (tasks_of list_title l))).

(** The [notify] closure of [_add_notification_job].  [sink_ok]: [n.send()]
    returned ([false]: it raised); [write_ok]: the file write went
    through.  Building the [Notify] object is taken to succeed. *)
Definition notify (list_title : string) (sink_ok write_ok : bool) (s : App)
  : App :=
  let s1 :=
    emit (Notification (notification_title list_title)
            (notification_message list_title (lists s)) sink_ok) s in
  match dict_get list_title (lists s1) with
  | None => s1
  | Some d =>
      let s2 :=
        set_lists (dict_set list_title (with_reminder "" d) (lists s1)) s1 in
      let s3 :=
        if decide (current s2 = Some list_title)
        then set_info InfoNone s2 else s2 in
      _save_data write_ok s3
  end.

(** [run_dt]: the naive datetime built from the calendar and the time
    edit, seconds zero; [now]: [dt.datetime.now()]. *)
Definition _schedule_reminder_for_current_list (run_dt now : DT) (s : App)
  : App :=
  match current s with
  | None => emit (MessageBox DlgSelectToSchedule) s
  | Some title =>
      match dt_compare run_dt now with
      | None => emit (Uncaught TypeError) s
      | Some Gt =>
          match dict_get title (lists s) with
          | None => emit (Uncaught KeyError) s
          | Some d =>
              let s1 :=
                set_lists
                  (dict_set title (with_reminder (isoformat run_dt) d)
                     (lists s)) s in
              let '(sch, raised) :=
                _add_notification_job (scheduler s1) title run_dt in
              let s2 := set_scheduler sch s1 in
              match raised with
              | Some e => emit (Uncaught e) s2
              | None =>
                  emit (MessageBox (DlgScheduled title run_dt))
                    (set_info (InfoReminder run_dt) s2)
              end
          end
      | Some _ => emit (MessageBox DlgInvalid) s
      end
  end.

Definition _clear_reminder_for_current_list (s : App) : App :=
  match current s with
  | None => s
  | Some title =>
      match dict_get title (lists s) with
      | None => emit (Uncaught KeyError) s
      | Some d =>
          if negb (truthy (reminder d)) then emit (MessageBox DlgNoReminder) s
          else
            let sch := try_remove_job (scheduler s) (_job_id_for title) in
            emit (MessageBox DlgCleared)
              (set_info InfoNone
                 (set_lists (dict_set title (with_reminder "" d) (lists s))
                    (set_scheduler sch s)))
      end
  end.

(** One turn of the loop of [_schedule_existing_reminders], for the key
    [title]: [data] is the live entry of the store. *)
Definition rearm_visit (now : DT) (s : App) (title : string) : App :=
  match dict_get title (lists s) with
  | None => s
  | Some data =>
      let rem := reminder data in
      let clear :=
        set_lists (dict_set title (with_reminder "" data) (lists s)) in
      if truthy rem then
        match fromisoformat rem with
        | None => clear s
        | Some run_dt =>
            match dt_compare run_dt now with
            | None => clear s
            | Some Gt =>
                let '(sch, raised) :=
                  _add_notification_job (scheduler s) title run_dt in
                match raised with
                | None => set_scheduler sch s
                | Some _ => clear (set_scheduler sch s)
                end
            | Some _ => clear s
            end
        end
      else s
  end.

(** [TodoApp._schedule_existing_reminders]: the loop over the items of
    [self.lists], in the dictionary's order.  The pass is taken to be
    instantaneous: every turn reads the same [now]. *)
Definition _schedule_existing_reminders (now : DT) (s : App) : App :=
  fold_left (rearm_visit now) (dict_keys (lists s)) s.

Definition _mark_list_done (s : App) : App :=
  match current s with
  | None => s
  | Some title =>
      match dict_get title (lists s) with
      | None => emit (Uncaught KeyError) s
      | Some d =>
          let d' := mkTaskList (map (fun t => "✔ " ++ t) (tasks d)) "" in
          let sch := try_remove_job (scheduler s) (_job_id_for title) in
          emit (MessageBox (DlgDone title))
            (_on_list_selected
               (set_scheduler sch
                  (set_lists (dict_set title d' (lists s)) s)))
      end
  end.

(** The user clicks the item [title] of the sidebar, which shows the keys
    of [self.lists]. *)
Definition select (title : string) (s : App) : App :=
  if dict_mem title (lists s)
  then _on_list_selected (set_current (Some title) s)
  else s.

(** [TodoApp.__init__], from a started scheduler [sch0]. *)
Definition init (sch0 : S) (f : file) (now : DT) : App :=
  _schedule_existing_reminders now
    (_load_data f (mkApp [] sch0 None InfoBlank [])).
End Program.

(** ** The program on the in-memory scheduler *)

Abbreviation JobStore DT := (gmap string (Job DT)).
Abbreviation MemApp DT := (App DT (gmap string (Job DT))).

(** The scheduler thread finds the job [id] due: a date job is taken out of
    the store and its callable is run. *)
Definition fire {DT} `{!Datetime DT} (id : string) (sink_ok write_ok : bool)
  (s : MemApp DT) : MemApp DT :=
  match scheduler s !! id with
  | None => s
  | Some j =>
      notify (job_title j) sink_ok write_ok
        (set_scheduler (delete id (scheduler s)) s)
  end.

(** What the user and the scheduler can do to a running application. *)
Inductive op (DT : Type) :=
| Select (title : string)
| CreateList (title : string) (ok : bool)
| AddTask (text : string)
| RemoveTask (cur : Z)
| DeleteList (confirm : bool)
| Rename (new_title : string)
| Schedule (run_dt now : DT)
| ClearReminder
| MarkDone
| Save (write_ok : bool)
| Fire (id : string) (sink_ok write_ok : bool).
Arguments Select {DT} _.
Arguments CreateList {DT} _ _.
Arguments AddTask {DT} _.
Arguments RemoveTask {DT} _.
Arguments DeleteList {DT} _.
Arguments Rename {DT} _.
Arguments Schedule {DT} _ _.
Arguments ClearReminder {DT}.
Arguments MarkDone {DT}.
Arguments Save {DT} _.
Arguments Fire {DT} _ _ _.

Definition step {DT} `{!Datetime DT} (s : MemApp DT) (o : op DT) : MemApp DT :=
  match o with
  | Select title => select title s
  | CreateList title ok => _create_list_dialog title ok s
  | AddTask text => _add_task_to_current_list text s
  | RemoveTask cur => _remove_selected_task cur s
  | DeleteList confirm => _delete_selected_list confirm s
  | Rename new_title => _rename_current_list new_title s
  | Schedule run_dt now => _schedule_reminder_for_current_list run_dt now s
  | ClearReminder => _clear_reminder_for_current_list s
  | MarkDone => _mark_list_done s
  | Save write_ok => _save_data write_ok s
  | Fire id sink_ok write_ok => fire id sink_ok write_ok s
  end.

Definition run {DT} `{!Datetime DT} (s : MemApp DT) (ops : list (op DT))
  : MemApp DT := fold_left step ops s.

(** The application after start-up on a fresh scheduler. *)
Definition start {DT} `{!Datetime DT} (f : file) (now : DT) : MemApp DT :=
  init (∅ : JobStore DT) f now.

(** ** Naive datetimes at the resolution of a second

    An instance of the [datetime] interface for examples: the values the
    program builds with [dt.datetime(y, m, d, H, M, 0)], printed by
    [isoformat] as [YYYY-MM-DDTHH:MM:SS].  [fromisoformat] reads that
    shape back and rejects everything else. *)
Module Naive.
Local Open Scope nat_scope.

Record t := mk {
  year : nat; month : nat; day : nat;
  hour : nat; minute : nat; second : nat
}.

Definition digit (n : nat) : ascii := ascii_of_nat (48 + n).
Definition value (c : ascii) : option nat :=
  let n := nat_of_ascii c in
  if (48 <=? n) && (n <=? 57) then Some (n - 48) else None.

Definition pad2 (n : nat) : string :=
  String (digit (n / 10 mod 10)) (String (digit (n mod 10)) "").
Definition pad4 (n : nat) : string :=
  pad2 (n / 100) ++ pad2 (n mod 100).

Fixpoint number (acc : nat) (cs : list ascii) : option nat :=
  match cs with
  | [] => Some acc
  | c :: r => v ← value c; number (10 * acc + v) r
  end.

Definition leap (y : nat) : bool :=
  ((y mod 4 =? 0) && negb (y mod 100 =? 0)) || (y mod 400 =? 0).
Definition days_in_month (y m : nat) : nat :=
  match m with
  | 2 => if leap y then 29 else 28
  | 4 | 6 | 9 | 11 => 30
  | _ => 31
  end.
Definition valid (d : t) : bool :=
  (1 <=? year d) && (year d <? 100 * 100)
  && (1 <=? month d) && (month d <=? 12)
  && (1 <=? day d) && (day d <=? days_in_month (year d) (month d))
  && (hour d <? 24) && (minute d <? 60) && (second d <? 60).

Definition to_iso (d : t) : string :=
  pad4 (year d) ++ "-" ++ pad2 (month d) ++ "-" ++ pad2 (day d) ++ "T"
    ++ pad2 (hour d) ++ ":" ++ pad2 (minute d) ++ ":" ++ pad2 (second d).

Definition sep (c : ascii) (lit : string) : bool :=
  if decide (String c "" = lit) then true else false.

Definition of_iso (s : string) : option t :=
  match list_ascii_of_string s with
  | [y1; y2; y3; y4; c1; m1; m2; c2; d1; d2; c3; h1; h2; c4; i1; i2; c5; s1; s2] =>
      if sep c1 "-" && sep c2 "-" && sep c3 "T" && sep c4 ":" && sep c5 ":" then
        y ← number 0 [y1; y2; y3; y4];
        m ← number 0 [m1; m2];
        d ← number 0 [d1; d2];
        h ← number 0 [h1; h2];
        i ← number 0 [i1; i2];
        sec ← number 0 [s1; s2];
        let r := mk y m d h i sec in
        if valid r then Some r else None
      else None
  | _ => None
  end.

Definition fields (d : t) : list nat :=
  [year d; month d; day d; hour d; minute d; second d].

Fixpoint lex (a b : list nat) : comparison :=
  match a, b with
  | x :: a', y :: b' =>
      match Nat.compare x y with Eq => lex a' b' | c => c end
  | [], [] => Eq
  | [], _ :: _ => Lt
  | _ :: _, [] => Gt
  end.

Definition compare (a b : t) : option comparison :=
  Some (lex (fields a) (fields b)).

#[export] Instance datetime : Datetime t := {
  isoformat := to_iso;
  fromisoformat := of_iso;
  dt_compare := compare
}.
End Naive.
Export (hints) Naive.

(** ** Vocabulary of the properties *)

(** The normalisation as the specification words it: every whitespace
    character ([str.isspace] on ASCII) becomes an underscore.  It is only
    compared with [replace_space], which is what the program does. *)
Definition is_whitespace (c : ascii) : bool :=
  let n := nat_of_ascii c in
  ((9 <=? n) && (n <=? 13) || (28 <=? n) && (n <=? 32))%nat.
Fixpoint spec_normalize (s : string) : string :=
  match s with
  | EmptyString => EmptyString
  | String c r =>
      String (if is_whitespace c then "_"%char else c) (spec_normalize r)
  end.
Definition spec_job_id (title : string) : string :=
  "reminder__" ++ spec_normalize title.

(** A scheduler whose job store takes no job: [add_job] raises
    [ConflictingIdError] on every id, the other calls go through. *)
Inductive Refusing := refusing.
#[export] Instance RefusingScheduler {DT} : Scheduler DT Refusing := {
  get_job _ _ := inr None;
  remove_job s _ := inr s;
  add_job _ _ _ := inl ConflictingIdError
}.

(** Whether [_add_notification_job] got its job into the scheduler: one of
    its [add_job] calls returned. *)
Definition registered {DT S} `{!Scheduler DT S} (sch : S) (list_title : string)
  (run_dt : DT) : bool :=
  let job_id := _job_id_for list_title in
  let sch1 :=
    match get_job sch job_id with
    | inr (Some _) => try_remove_job sch job_id
    | _ => sch
    end in
  match add_job sch1 job_id (mkJob list_title run_dt) with
  | inr _ => true
  | inl ConflictingIdError =>
      match remove_job sch1 job_id with
      | inl _ => false
      | inr sch2 =>
          match add_job sch2 job_id (mkJob list_title run_dt) with
          | inr _ => true
          | inl _ => false
          end
      end
  | inl _ => false
  end.

(** The scheduler after a rename that passed its guards, on the in-memory
    job store. *)
Definition renamed_jobs {DT} `{!Datetime DT} (old new : string) (d : TaskList)
  (sch : JobStore DT) : JobStore DT :=
  if truthy (reminder d) then
    match sch !! _job_id_for old with
    | Some _ =>
        match fromisoformat (reminder d) with
        | Some run_dt =>
            <[_job_id_for new := mkJob new run_dt]>
              (delete (_job_id_for old) sch)
        | None => delete (_job_id_for old) sch
        end
    | None => sch
    end
  else sch.

Section Consistency.
Context {DT : Type} `{!Datetime DT}.

(** No two titles of the store share a job id. *)
Definition no_collision (l : Store) : Prop :=
  forall t t', is_Some (dict_get t l) -> is_Some (dict_get t' l) ->
    _job_id_for t = _job_id_for t' -> t = t'.

(** Every job belongs to a list of the store: it sits under the id of the
    title it was made for, and that list's reminder is its fire time. *)
Definition jobs_sound (l : Store) (sch : JobStore DT) : Prop :=
  forall id j, sch !! id = Some j ->
    id = _job_id_for (job_title j)
    /\ exists d, dict_get (job_title j) l = Some d
         /\ reminder d <> ""
         /\ fromisoformat (reminder d) = Some (run_date j).

(** Every list with a reminder has a job under its id. *)
Definition jobs_complete (l : Store) (sch : JobStore DT) : Prop :=
  forall t d, dict_get t l = Some d -> reminder d <> "" ->
    is_Some (sch !! _job_id_for t).

(** The stored reminder of every list agrees with the job store: empty
    and no job under the list's id, or the text of the fire time of the
    job under that id, which is the list's own job. *)
Definition agrees (s : MemApp DT) : Prop :=
  forall t d, dict_get t (lists s) = Some d ->
    (reminder d = "" -> scheduler s !! _job_id_for t = None)
    /\ (reminder d <> "" ->
        exists j, scheduler s !! _job_id_for t = Some j
          /\ job_title j = t
          /\ fromisoformat (reminder d) = Some (run_date j)).

(** The date a [Schedule] step hands over is one [isoformat] prints to a
    text that [fromisoformat] reads back, as for every [datetime]. *)
Definition op_ok (o : op DT) : Prop :=
  match o with
  | Schedule run_dt _ =>
      isoformat run_dt <> "" /\ fromisoformat (isoformat run_dt) = Some run_dt
  | _ => True
  end.

(** A run along which no two titles of the store ever share a job id. *)
Fixpoint collision_free (s : MemApp DT) (ops : list (op DT)) : Prop :=
  no_collision (lists s)
  /\ match ops with
     | [] => True
     | o :: r => op_ok o /\ collision_free (step s o) r
     end.

(** The file decodes to a dictionary: its keys are distinct. *)
Definition file_ok (f : file) : Prop :=
  match f with
  | Content st => NoDup (dict_keys st)
  | _ => True
  end.
End Consistency.

(** ** Example states *)

Definition at_9 : Naive.t := Naive.mk 2031 4 9 9 0 0.
Definition at_18 : Naive.t := Naive.mk 2031 4 9 18 30 0.
Definition today : Naive.t := Naive.mk 2031 4 8 12 0 0.

(** Two lists whose titles differ in a space against an underscore, a
    reminder set on each, then the second one cleared. *)
Definition colliding_ops : list (op Naive.t) :=
  [ CreateList "a b" true; CreateList "a_b" true;
    Select "a b"; Schedule at_9 today;
    Select "a_b"; Schedule at_18 today;
    ClearReminder ].

(** One list with two tasks and a reminder. *)
Definition errands_ops : list (op Naive.t) :=
  [ CreateList "Errands" true; AddTask "Buy milk"; AddTask "Pay bills";
    Schedule at_9 today ].


(** The application after [errands_ops]; and after the list was deleted
    as well, which is what the callable of a job sees when the scheduler
    took the job out before the deletion. *)
Definition errands : MemApp Naive.t := run (start Missing today) errands_ops.
Definition errands_deleted : MemApp Naive.t :=
  run (start Missing today) (errands_ops ++ [DeleteList true]).

(** ["a_b"] has a reminder, ["a b"] has none and is selected: the job of
    ["a_b"] sits under the id of ["a b"] too. *)
Definition shadowed_ops : list (op Naive.t) :=
  [ CreateList "a b" true; CreateList "a_b" true; Schedule at_9 today;
    Select "a b" ].
Definition shadowed : MemApp Naive.t := run (start Missing today) shadowed_ops.



(** A session after loading [saved_store]: lists are created, scheduled,
    renamed and marked done, and a job fires; no two titles ever share a
    job id. *)
Definition calm_ops : list (op Naive.t) :=
  [ CreateList "Errands" true; AddTask "Buy milk"; Schedule at_9 today;
    CreateList "Work" true; Schedule at_18 today;
    Select "Errands"; Rename "Chores";
    Fire "reminder__Work" false true;
    Select "New"; MarkDone ].

(** A list selected on the scheduler that takes no job. *)
Definition refused : App Naive.t Refusing :=
  select "Work"
    (mkApp [("Work", mkTaskList ["a"; "b"] "")] refusing None InfoBlank []).

(** A store as loaded from disk: a reminder in the past, one in the
    future, one that does not parse, and a list without a reminder. *)
Definition saved_store : Store :=
  [ ("Old", mkTaskList ["x"] "2031-04-08T11:59:59");
    ("New", mkTaskList ["y"] "2031-04-08T13:00:00");
    ("Odd", mkTaskList [] "tomorrow");
    ("Free", mkTaskList ["z"] "") ].

(** ** Vocabulary of the further properties *)

(** The character [c] occurs in [s]. *)
Fixpoint mentions (c : ascii) (s : string) : bool :=
  match s with
  | EmptyString => false
  | String c' r => Ascii.eqb c c' || mentions c r
  end.

(** The notifications handed to the sink, in a log. *)
Definition is_notification {DT} (e : event DT) : bool :=
  match e with Notification _ _ _ => true | _ => false end.
Definition notifications {DT} (lg : list (event DT)) : nat :=
  length (filter (fun e => is_notification e = true) lg).

(** The [Fire] steps of a run. *)
Definition is_fire {DT} (o : op DT) : bool :=
  match o with Fire _ _ _ => true | _ => false end.
Definition fires {DT} (ops : list (op DT)) : nat :=
  length (filter (fun o => is_fire o = true) ops).

(** The selected item of the sidebar names a list of the store. *)
Definition selected_ok {DT S} (s : App DT S) : Prop :=
  forall t, current s = Some t -> is_Some (dict_get t (lists s)).

(** A [KeyError] left a method. *)
Definition key_error {DT} (e : event DT) : bool :=
  match e with Uncaught KeyError => true | _ => false end.

(** A step from [s] to [s']: the log grew by some events, at most
    [max_notifications] of them notifications; and when the selection of
    [s] names a list of the store, so does the selection of [s'], and none
    of the new events is a [KeyError]. *)
Definition step_summary {DT S} (s s' : App DT S) (max_notifications : nat)
  : Prop :=
  exists evs,
    log s' = (log s ++ evs)%list
    /\ notifications evs <= max_notifications
    /\ (selected_ok s ->
        selected_ok s' /\ Forall (fun e => key_error e = false) evs).

(** The operations that can change the set of titles of the store. *)
Definition changes_titles {DT} (o : op DT) : bool :=
  match o with
  | CreateList _ _ | DeleteList _ | Rename _ => true
  | _ => false
  end.

(** Two lists that share a job id, both with a reminder that is still
    ahead at noon of the 8th. *)
Definition colliding_store : Store :=
  [ ("a b", mkTaskList [] "2031-04-09T09:00:00");
    ("a_b", mkTaskList [] "2031-04-09T18:30:00") ].

(** The text the [reminder_info] label has for a stored reminder, and the
    label agreeing with the selection: blank with no list selected, and the
    text for the stored reminder of the selected list otherwise. *)
Definition label_of {DT} `{!Datetime DT} (rem : string) : info DT :=
  if truthy rem then
    match fromisoformat rem with
    | Some dtobj => InfoReminder dtobj
    | None => InfoInvalid
    end
  else InfoNone.
Definition label_ok {DT S} `{!Datetime DT} (s : App DT S) : Prop :=
  reminder_info s
  = match current s with
    | None => InfoBlank
    | Some t => label_of (reminder_of t (lists s))
    end.

(** * Properties *)

Example naive_iso :
  isoformat (Naive.mk 2031 4 9 18 30 0) = "2031-04-09T18:30:00"
  /\ fromisoformat "2031-04-09T18:30:00" = Some (Naive.mk 2031 4 9 18 30 0)
  /\ fromisoformat "2031-02-30T18:30:00" = (None : option Naive.t)
  /\ fromisoformat "tomorrow" = (None : option Naive.t).
Proof. repeat split; vm_compute; reflexivity. Qed.

(** ** Strings *)

Lemma truthy_true (s : string) : truthy s = true <-> s <> "".
Proof. destruct s; simpl; split; intros; congruence. Qed.

Lemma truthy_false (s : string) : truthy s = false <-> s = "".
Proof. destruct s; simpl; split; intros; congruence. Qed.

Lemma replace_space_length (s : string) :
  String.length (replace_space s) = String.length s.
Proof. induction s as [|c r IH]; simpl; congruence. Qed.

Lemma replace_space_get (s : string) (i : nat) :
  String.get i (replace_space s)
  = (fun c => if Ascii.eqb c " " then "_"%char else c) <$> String.get i s.
Proof.
  revert i; induction s as [|c r IH]; intros [|i]; simpl; auto.
Qed.

(** ** Dictionaries *)

Section DictFacts.
Context {V : Type}.
Implicit Types (k : string) (v : V) (d : list (string * V)).

Lemma dict_get_set_eq k v d : dict_get k (dict_set k v d) = Some v.
Proof.
  induction d as [|[k' v'] r IH]; simpl.
  - by rewrite decide_True.
  - destruct (decide (k = k')); simpl.
    + by rewrite decide_True.
    + by rewrite decide_False.
Qed.

Lemma dict_get_set_ne k k' v d :
  k <> k' -> dict_get k' (dict_set k v d) = dict_get k' d.
Proof.
  intros Hne. induction d as [|[k2 v2] r IH]; simpl.
  - by rewrite decide_False.
  - destruct (decide (k = k2)) as [->|]; simpl.
    + by rewrite !decide_False.
    + destruct (decide (k' = k2)); auto.
Qed.

Lemma dict_get_set k k' v d :
  dict_get k' (dict_set k v d)
  = if decide (k = k') then Some v else dict_get k' d.
Proof.
  destruct (decide (k = k')) as [->|].
  - apply dict_get_set_eq.
  - by apply dict_get_set_ne.
Qed.

Lemma dict_get_pop_eq k d : dict_get k (dict_pop k d) = None.
Proof.
  induction d as [|[k' v'] r IH]; simpl; auto.
  destruct (decide (k = k')); simpl; auto.
  by rewrite decide_False.
Qed.

Lemma dict_get_pop_ne k k' d :
  k <> k' -> dict_get k' (dict_pop k d) = dict_get k' d.
Proof.
  intros Hne. induction d as [|[k2 v2] r IH]; simpl; auto.
  destruct (decide (k = k2)) as [->|]; simpl.
  - by rewrite decide_False.
  - destruct (decide (k' = k2)); auto.
Qed.

Lemma dict_get_pop k k' d :
  dict_get k' (dict_pop k d)
  = if decide (k = k') then None else dict_get k' d.
Proof.
  destruct (decide (k = k')) as [->|].
  - apply dict_get_pop_eq.
  - by apply dict_get_pop_ne.
Qed.

Lemma dict_pop_absent k d : dict_get k d = None -> dict_pop k d = d.
Proof.
  induction d as [|[k' v'] r IH]; simpl; auto.
  destruct (decide (k = k')); [discriminate|].
  intros H. by rewrite IH.
Qed.

Lemma dict_get_None k d : dict_get k d = None <-> k ∉ dict_keys d.
Proof.
  induction d as [|[k' v'] r IH]; simpl.
  - split; auto. intros _. apply not_elem_of_nil.
  - rewrite not_elem_of_cons. destruct (decide (k = k')); simpl.
    + split; [discriminate|]. intros [? _]. done.
    + rewrite IH. tauto.
Qed.

Lemma dict_get_is_Some k d : is_Some (dict_get k d) <-> k ∈ dict_keys d.
Proof.
  rewrite <- not_eq_None_Some, dict_get_None.
  destruct (decide (k ∈ dict_keys d)); tauto.
Qed.

Lemma dict_keys_set_present k v d :
  is_Some (dict_get k d) -> dict_keys (dict_set k v d) = dict_keys d.
Proof.
  induction d as [|[k' v'] r IH]; simpl.
  - intros [? ?]. discriminate.
  - destruct (decide (k = k')) as [->|]; simpl; auto.
    intros H. f_equal. by apply IH.
Qed.

Lemma dict_mem_true k d : dict_mem k d = true <-> is_Some (dict_get k d).
Proof.
  unfold dict_mem. destruct (dict_get k d); split; intros H; eauto.
  - discriminate.
  - by destruct H.
Qed.

Lemma dict_mem_false k d : dict_mem k d = false <-> dict_get k d = None.
Proof.
  unfold dict_mem. destruct (dict_get k d); split; intros H; eauto;
    discriminate.
Qed.
End DictFacts.

(** ** What the helpers leave alone *)

Section Frames.
Context {DT S : Type} `{!Datetime DT} `{!Scheduler DT S}.
Implicit Types s : App DT S.

Lemma on_list_selected_frame s :
  lists (_on_list_selected s) = lists s
  /\ scheduler (_on_list_selected s) = scheduler s
  /\ current (_on_list_selected s) = current s
  /\ log (_on_list_selected s) = log s.
Proof.
  destruct s as [l sch [title|] i lg]; unfold _on_list_selected; simpl;
    [|done].
  destruct (truthy _); [|done].
  by destruct (fromisoformat _).
Qed.

Lemma refresh_sidebar_frame s :
  lists (_refresh_sidebar s) = lists s
  /\ scheduler (_refresh_sidebar s) = scheduler s
  /\ current (_refresh_sidebar s) = None
  /\ log (_refresh_sidebar s) = log s.
Proof.
  destruct s as [l sch [title|] i lg]; unfold _refresh_sidebar; simpl;
    [|done].
  apply (on_list_selected_frame (mkApp l sch None i lg)).
Qed.

Lemma select_item_frame title s :
  lists (select_item title s) = lists s
  /\ scheduler (select_item title s) = scheduler s
  /\ log (select_item title s) = log s
  /\ current (select_item title s)
     = if dict_mem title (lists s) then Some title else current s.
Proof.
  unfold select_item.
  destruct (dict_mem title (lists s)); [|done].
  destruct (on_list_selected_frame (set_current (Some title) s))
    as (-> & -> & -> & ->).
  by destruct s.
Qed.
End Frames.

(** ** The in-memory scheduler *)

Section MemFacts.
Context {DT : Type} `{!Datetime DT}.
Implicit Types (sch : JobStore DT) (s : MemApp DT).

Lemma try_remove_job_mem sch id : try_remove_job sch id = delete id sch.
Proof.
  unfold try_remove_job; simpl; unfold mem_remove_job.
  destruct (sch !! id) eqn:H; [done|].
  symmetry. by apply delete_id.
Qed.

(** On the in-memory store [_add_notification_job] never raises and
    leaves exactly the new job under the id. *)
Lemma add_notification_job_mem sch title run_dt :
  _add_notification_job sch title run_dt
  = (<[_job_id_for title := mkJob title run_dt]> sch, None).
Proof.
  unfold _add_notification_job; simpl; unfold mem_get_job.
  destruct (sch !! _job_id_for title) eqn:H.
  - rewrite try_remove_job_mem. unfold mem_add_job.
    rewrite lookup_delete_eq. by rewrite insert_delete_eq.
  - unfold mem_add_job. by rewrite H.
Qed.

Lemma registered_mem sch title run_dt : registered sch title run_dt = true.
Proof.
  unfold registered; simpl; unfold mem_get_job.
  destruct (sch !! _job_id_for title) eqn:H.
  - rewrite try_remove_job_mem. unfold mem_add_job.
    by rewrite lookup_delete_eq.
  - unfold mem_add_job. by rewrite H.
Qed.
End MemFacts.

(** ** Job identity *)

(** C3, as stated: a tab is a whitespace character, and the job id keeps
    it; the id differs from the one the specification describes. *)
Lemma job_id_keeps_tab :
  is_whitespace (ascii_of_nat 9) = true
  /\ _job_id_for ("a" ++ tab ++ "b") = "reminder__a" ++ tab ++ "b"
  /\ _job_id_for ("a" ++ tab ++ "b") <> spec_job_id ("a" ++ tab ++ "b").
Proof. repeat split. vm_compute. discriminate. Qed.

(** C3, amended: [_job_id_for] is a total function of the title alone; its
    result is ["reminder__"] followed by the title in which every space
    (U+0020) is an underscore and every other character, other whitespace
    included, is as it was. *)
Theorem job_id_for_spaces (title : string) :
  exists norm,
    _job_id_for title = "reminder__" ++ norm
    /\ String.length norm = String.length title
    /\ forall i,
        String.get i norm
        = (fun c => if Ascii.eqb c " " then "_"%char else c)
            <$> String.get i title.
Proof.
  exists (replace_space title). split; [reflexivity|].
  split; [apply replace_space_length|apply replace_space_get].
Qed.

(** Where the title has no whitespace but spaces, the program's id is the
    specification's. *)
Lemma replace_space_spec_normalize (title : string) :
  (forall i c, String.get i title = Some c -> is_whitespace c = true ->
     c = " "%char) ->
  _job_id_for title = spec_job_id title.
Proof.
  intros H. unfold _job_id_for, spec_job_id. f_equal.
  induction title as [|c r IH]; simpl; [done|].
  rewrite IH by (intros i c' Hi; apply (H (Datatypes.S i) c' Hi)).
  f_equal.
  destruct (Ascii.eqb c " ") eqn:E.
  - apply Ascii.eqb_eq in E. by subst.
  - destruct (is_whitespace c) eqn:W; [|done].
    specialize (H 0%nat c eq_refl W). subst. discriminate.
Qed.

(** ** The notification *)

Section Notify.
Context {DT S : Type} `{!Datetime DT} `{!Scheduler DT S}.
Implicit Types s : App DT S.

Lemma notify_present s list_title sink_ok write_ok d :
  dict_get list_title (lists s) = Some d ->
  let l' := dict_set list_title (with_reminder "" d) (lists s) in
  let s' := notify list_title sink_ok write_ok s in
  lists s' = l'
  /\ scheduler s' = scheduler s
  /\ current s' = current s
  /\ reminder_info s'
     = (if decide (current s = Some list_title)
        then InfoNone else reminder_info s)
  /\ log s'
     = (log s
        ++ [ Notification (notification_title list_title)
               (notification_message list_title (lists s)) sink_ok;
             FileWrite l' write_ok;
             MessageBox (if write_ok then DlgSaved else DlgSaveError) ])%list.
Proof.
  intros Hd. destruct s as [l sch cur i lg]; simpl in *.
  unfold notify; simpl. rewrite Hd; simpl.
  destruct (decide (cur = Some list_title)); simpl;
    rewrite <- !app_assoc; done.
Qed.

Lemma notify_absent s list_title sink_ok write_ok :
  dict_get list_title (lists s) = None ->
  notify list_title sink_ok write_ok s
  = emit (Notification (notification_title list_title)
            (notification_message list_title (lists s)) sink_ok) s.
Proof.
  intros Hd. destruct s as [l sch cur i lg]; simpl in *.
  unfold notify; simpl. by rewrite Hd.
Qed.


(** C5: when the job of a list of the store fires, the reminder of the
    list is set to the empty string and the store is written out,
    whether [send()] returned or raised ([sink_ok] is arbitrary): the
    write is of the store with the reminder cleared, and it follows the
    notification. *)
Theorem fire_clears_and_persists s list_title sink_ok write_ok d :
  dict_get list_title (lists s) = Some d ->
  let s' := notify list_title sink_ok write_ok s in
  dict_get list_title (lists s') = Some (mkTaskList (tasks d) "")
  /\ (forall t, t <> list_title ->
        dict_get t (lists s') = dict_get t (lists s))
  /\ exists title message,
      log s'
      = (log s
         ++ [ Notification title message sink_ok;
              FileWrite (lists s') write_ok;
              MessageBox (if write_ok then DlgSaved else DlgSaveError) ])%list.
Proof.
  intros Hd s'.
  destruct (notify_present s list_title sink_ok write_ok d Hd)
    as (Hl & _ & _ & _ & Hlog).
  fold s' in Hl, Hlog. rewrite Hl. split; [apply dict_get_set_eq|].
  split; [intros t Ht; by apply dict_get_set_ne|].
  eexists _, _. exact Hlog.
Qed.

(** C10: when the job fires for a title that is not a key of the store
    any more, the notification is still handed to the sink, with no task
    line; nothing else happens: the store, the scheduler and the widgets
    are as before and no file is written. *)
Theorem fire_for_missing_list s list_title sink_ok write_ok :
  dict_get list_title (lists s) = None ->
  let s' := notify list_title sink_ok write_ok s in
  lists s' = lists s
  /\ scheduler s' = scheduler s
  /\ current s' = current s
  /\ reminder_info s' = reminder_info s
  /\ log s'
     = (log s
        ++ [ Notification ("Reminder — " ++ list_title)
               ("You scheduled a reminder for '" ++ list_title ++ "'."
                ++ nl ++ "Tasks:" ++ nl) sink_ok ])%list.
Proof.
  intros Hd s'. subst s'. rewrite notify_absent by done.
  repeat split. simpl. unfold notification_message, tasks_of.
  rewrite Hd. reflexivity.
Qed.
End Notify.

Lemma errands_entry :
  dict_get "Errands" (lists errands)
  = Some (mkTaskList ["Buy milk"; "Pay bills"] "2031-04-09T09:00:00").
Proof. vm_compute. reflexivity. Qed.

Lemma fire_clears_and_persists_witness :
  dict_get "Errands" (lists (notify "Errands" false true errands))
  = Some (mkTaskList ["Buy milk"; "Pay bills"] "").
Proof.
  exact (proj1 (fire_clears_and_persists errands "Errands" false true _
                  errands_entry)).
Defined.

Lemma errands_deleted_entry : dict_get "Errands" (lists errands_deleted) = None.
Proof. vm_compute. reflexivity. Qed.

Lemma fire_for_missing_list_witness :
  lists (notify "Errands" true true errands_deleted) = lists errands_deleted.
Proof.
  exact (proj1 (fire_for_missing_list errands_deleted "Errands" true true
                  errands_deleted_entry)).
Defined.

(** ** Scheduling, clearing and deleting on the in-memory scheduler *)

Section MemOperations.
Context {DT : Type} `{!Datetime DT}.
Implicit Types (sch : JobStore DT) (s : MemApp DT).

Lemma schedule_mem s t d run_dt now :
  current s = Some t ->
  dict_get t (lists s) = Some d ->
  dt_compare run_dt now = Some Gt ->
  _schedule_reminder_for_current_list run_dt now s
  = mkApp (dict_set t (with_reminder (isoformat run_dt) d) (lists s))
      (<[_job_id_for t := mkJob t run_dt]> (scheduler s))
      (Some t) (InfoReminder run_dt)
      (log s ++ [MessageBox (DlgScheduled t run_dt)])%list.
Proof.
  intros Hc Hd Hgt. destruct s as [l sch cur i lg]; simpl in *. subst cur.
  unfold _schedule_reminder_for_current_list; simpl.
  rewrite Hgt, Hd. simpl.
  unfold set_lists at 1; simpl.
  by rewrite add_notification_job_mem.
Qed.

(** C4: two schedules in a row for the same list leave one job under the
    list's id, the one made by the second call: it fires at [f2], the job
    that fired at [f1] was taken out, no other job was touched and the
    stored reminder is the text of [f2]. *)
Theorem schedule_replaces s t d f1 f2 now1 now2 :
  current s = Some t ->
  dict_get t (lists s) = Some d ->
  dt_compare f1 now1 = Some Gt ->
  dt_compare f2 now2 = Some Gt ->
  let s1 := _schedule_reminder_for_current_list f1 now1 s in
  let s2 := _schedule_reminder_for_current_list f2 now2 s1 in
  scheduler s1 !! _job_id_for t = Some (mkJob t f1)
  /\ scheduler s2 !! _job_id_for t = Some (mkJob t f2)
  /\ scheduler s2 = <[_job_id_for t := mkJob t f2]> (scheduler s)
  /\ (f1 <> f2 ->
      forall j, scheduler s2 !! _job_id_for t = Some j -> run_date j <> f1)
  /\ reminder_of t (lists s2) = isoformat f2.
Proof.
  intros Hc Hd H1 H2 s1 s2.
  assert (E1 := schedule_mem s t d f1 now1 Hc Hd H1). fold s1 in E1.
  assert (Hd1 : dict_get t (lists s1)
                = Some (with_reminder (isoformat f1) d)).
  { rewrite E1. simpl. apply dict_get_set_eq. }
  assert (Hc1 : current s1 = Some t) by (by rewrite E1).
  assert (E2 := schedule_mem s1 t _ f2 now2 Hc1 Hd1 H2). fold s2 in E2.
  assert (Hs2 : scheduler s2 = <[_job_id_for t := mkJob t f2]> (scheduler s)).
  { rewrite E2, E1. simpl. apply insert_insert_eq. }
  split; [rewrite E1; simpl; apply lookup_insert_eq|].
  split; [rewrite Hs2; apply lookup_insert_eq|].
  split; [done|].
  split.
  - intros Hne j. rewrite Hs2, lookup_insert_eq. intros [= <-]. simpl.
    congruence.
  - rewrite E2. unfold reminder_of. simpl. by rewrite dict_get_set_eq.
Qed.

Lemma delete_mem s t :
  current s = Some t ->
  let s' := _delete_selected_list true s in
  lists s' = dict_pop t (lists s)
  /\ scheduler s'
     = (if truthy (reminder_of t (lists s))
        then delete (_job_id_for t) (scheduler s) else scheduler s)
  /\ current s' = None
  /\ log s' = log s.
Proof.
  intros Hc. unfold _delete_selected_list. rewrite Hc. simpl.
  rewrite try_remove_job_mem.
  match goal with |- context [_refresh_sidebar ?x] =>
    destruct (refresh_sidebar_frame x) as (-> & -> & -> & ->) end.
  done.
Qed.

(** C9: deleting the selected list takes the job under the list's id out
    of the scheduler only when the list's stored reminder is not empty.
    With an empty reminder the list leaves the store and the scheduler
    is left as it was: a job under that id stays pending. *)
Theorem delete_removes_job_only_with_reminder s t :
  current s = Some t ->
  let s' := _delete_selected_list true s in
  dict_get t (lists s') = None
  /\ (reminder_of t (lists s) = "" ->
      scheduler s' = scheduler s
      /\ forall j, scheduler s !! _job_id_for t = Some j ->
           scheduler s' !! _job_id_for t = Some j)
  /\ (reminder_of t (lists s) <> "" ->
      scheduler s' = delete (_job_id_for t) (scheduler s)
      /\ scheduler s' !! _job_id_for t = None).
Proof.
  intros Hc s'. destruct (delete_mem s t Hc) as (Hl & Hs & _ & _).
  fold s' in Hl, Hs. rewrite Hl, Hs.
  split; [apply dict_get_pop_eq|]. split.
  - intros ->. simpl. done.
  - intros Hr. apply truthy_true in Hr. rewrite Hr.
    split; [done|apply lookup_delete_eq].
Qed.
End MemOperations.

Lemma schedule_replaces_witness :
  scheduler
    (_schedule_reminder_for_current_list at_18 today
       (_schedule_reminder_for_current_list at_9 today errands))
  !! _job_id_for "Errands"
  = Some (mkJob "Errands" at_18).
Proof.
  refine (proj1 (proj2 (schedule_replaces errands "Errands" _ at_9 at_18
                          today today _ errands_entry _ _)));
    vm_compute; reflexivity.
Defined.

Lemma delete_removes_job_only_with_reminder_witness :
  reminder_of "a b" (lists shadowed) = ""
  /\ scheduler shadowed !! _job_id_for "a b" = Some (mkJob "a_b" at_9)
  /\ dict_get "a b" (lists (_delete_selected_list true shadowed)) = None
  /\ scheduler (_delete_selected_list true shadowed) !! _job_id_for "a b"
     = Some (mkJob "a_b" at_9).
Proof.
  assert (Hc : current shadowed = Some "a b") by (vm_compute; reflexivity).
  assert (Hr : reminder_of "a b" (lists shadowed) = "")
    by (vm_compute; reflexivity).
  assert (Hj : scheduler shadowed !! _job_id_for "a b"
               = Some (mkJob "a_b" at_9)) by (vm_compute; reflexivity).
  destruct (delete_removes_job_only_with_reminder shadowed "a b" Hc)
    as (Hgone & Hkeep & _).
  destruct (Hkeep Hr) as (_ & Hstay).
  exact (conj Hr (conj Hj (conj Hgone (Hstay _ Hj)))).
Defined.

(** ** Renaming *)

Section MemRename.
Context {DT : Type} `{!Datetime DT}.
Implicit Types (sch : JobStore DT) (s : MemApp DT).

Lemma rename_mem s old new d :
  current s = Some old ->
  new <> "" -> new <> old ->
  dict_get new (lists s) = None ->
  dict_get old (lists s) = Some d ->
  let s' := _rename_current_list new s in
  lists s' = dict_set new d (dict_pop old (lists s))
  /\ scheduler s' = renamed_jobs old new d (scheduler s)
  /\ current s' = Some new
  /\ log s' = log s.
Proof.
  intros Hc Hne Hno Hnew Hold. unfold _rename_current_list.
  rewrite Hc. apply truthy_true in Hne. rewrite Hne. simpl.
  rewrite decide_False by done.
  apply dict_mem_false in Hnew. rewrite Hnew, Hold. cbv zeta.
  match goal with |- context [select_item new ?x] =>
    destruct (select_item_frame new x) as (-> & -> & -> & ->) end.
  match goal with |- context [_refresh_sidebar ?x] =>
    destruct (refresh_sidebar_frame x) as (-> & -> & _ & ->) end.
  simpl. split; [done|]. split.
  { unfold renamed_jobs, mem_get_job, mem_remove_job.
    destruct (truthy (reminder d)); [|done].
    destruct (scheduler s !! _job_id_for old); [|done].
    destruct (fromisoformat (reminder d)); [|done].
    by rewrite add_notification_job_mem. }
  unfold dict_mem. by rewrite dict_get_set_eq.
Qed.

End MemRename.



(** ** Re-arming at start-up *)

Section MemRearm.
Context {DT : Type} `{!Datetime DT}.
Implicit Types (sch : JobStore DT) (s : MemApp DT).

(** One turn of the loop on the in-memory scheduler. *)
Lemma rearm_visit_mem now s title data :
  dict_get title (lists s) = Some data ->
  rearm_visit now s title
  = if truthy (reminder data) then
      match fromisoformat (reminder data) with
      | Some run_dt =>
          match dt_compare run_dt now with
          | Some Gt =>
              set_scheduler
                (<[_job_id_for title := mkJob title run_dt]> (scheduler s)) s
          | _ =>
              set_lists
                (dict_set title (with_reminder "" data) (lists s)) s
          end
      | None =>
          set_lists (dict_set title (with_reminder "" data) (lists s)) s
      end
    else s.
Proof.
  intros Hd. unfold rearm_visit. rewrite Hd. cbv zeta.
  destruct (truthy (reminder data)); [|done].
  destruct (fromisoformat (reminder data)) as [run_dt|]; [|done].
  destruct (dt_compare run_dt now) as [[]|]; try done.
  by rewrite add_notification_job_mem.
Qed.

Lemma rearm_visit_log now s title : log (rearm_visit now s title) = log s.
Proof.
  destruct (dict_get title (lists s)) as [data|] eqn:Hd.
  - rewrite (rearm_visit_mem now s title data Hd).
    destruct (truthy _); [|done].
    destruct (fromisoformat _) as [run_dt|]; [|done].
    by destruct (dt_compare run_dt now) as [[]|].
  - unfold rearm_visit. by rewrite Hd.
Qed.

Lemma rearm_visit_other now s title t :
  t <> title ->
  dict_get t (lists (rearm_visit now s title)) = dict_get t (lists s).
Proof.
  intros Hne.
  destruct (dict_get title (lists s)) as [data|] eqn:Hd.
  - rewrite (rearm_visit_mem now s title data Hd).
    destruct (truthy _); [|done].
    destruct (fromisoformat _) as [run_dt|]; simpl.
    + destruct (dt_compare run_dt now) as [[]|]; simpl; try done;
        by rewrite dict_get_set_ne.
    + by rewrite dict_get_set_ne.
  - unfold rearm_visit. by rewrite Hd.
Qed.

Lemma rearm_fold_log now titles s :
  log (fold_left (rearm_visit now) titles s) = log s.
Proof.
  revert s. induction titles as [|t r IH]; intros s; simpl; [done|].
  by rewrite IH, rearm_visit_log.
Qed.

Lemma rearm_fold_other now titles s t :
  t ∉ titles ->
  dict_get t (lists (fold_left (rearm_visit now) titles s))
  = dict_get t (lists s).
Proof.
  revert s. induction titles as [|t' r IH]; intros s Hn; simpl; [done|].
  apply not_elem_of_cons in Hn as [Hne Hn].
  by rewrite IH, rearm_visit_other.
Qed.

Lemma dict_get_middle {V} (pre post : list (string * V)) k v :
  k ∉ dict_keys pre -> dict_get k (pre ++ (k, v) :: post)%list = Some v.
Proof.
  induction pre as [|[k' v'] r IH]; simpl; intros Hn.
  - by rewrite decide_True.
  - apply not_elem_of_cons in Hn as [Hne Hn].
    rewrite decide_False by done. by apply IH.
Qed.

End MemRearm.

(** The store of [saved_store] after start-up at noon of the 8th: the
    reminder one second back and the unparseable one are cleared, the one an
    hour ahead is kept and is the only job. *)
Example rearm_saved_store :
  let s := start (Content saved_store) today in
  lists s
  = [ ("Old", mkTaskList ["x"] "");
      ("New", mkTaskList ["y"] "2031-04-08T13:00:00");
      ("Odd", mkTaskList [] "");
      ("Free", mkTaskList ["z"] "") ]
  /\ map_to_list (scheduler s)
     = [("reminder__New", mkJob "New" (Naive.mk 2031 4 8 13 0 0))]
  /\ log s = [].
Proof. repeat split; vm_compute; reflexivity. Qed.


(** ** Scheduling when the scheduler fails *)

Section ScheduleAnyScheduler.
Context {DT S : Type} `{!Datetime DT} `{!Scheduler DT S}.
Implicit Types s : App DT S.

(** A failure that [_add_notification_job] lets through is not a
    conflicting id: that one is caught, and so is whatever the retry
    raises. *)
Lemma add_notification_job_raises (sch : S) title run_dt e :
  (_add_notification_job sch title run_dt).2 = Some e ->
  e <> ConflictingIdError /\ registered sch title run_dt = false.
Proof.
  unfold _add_notification_job, registered. cbv zeta.
  destruct (add_job _ _ _) as [[]|sch2]; simpl; try (intros [= <-]; done);
    try discriminate.
  destruct (remove_job _ _) as [?|sch3]; simpl; [discriminate|].
  destruct (add_job sch3 _ _); discriminate.
Qed.

(** C2, amended: a schedule that passes its guards writes the text of
    the new time into the list's reminder before it calls the scheduler,
    and that value stays whatever the scheduler does.  When no exception
    leaves [_add_notification_job] (a conflicting id, also of the retry,
    is swallowed there) the operation reports ["Scheduled"], registered
    or not; an exception that does leave it, which is never a
    conflicting id, leaves the operation too, with the reminder set. *)
Theorem schedule_sets_reminder_first s t d run_dt now :
  current s = Some t ->
  dict_get t (lists s) = Some d ->
  dt_compare run_dt now = Some Gt ->
  let s' := _schedule_reminder_for_current_list run_dt now s in
  dict_get t (lists s') = Some (mkTaskList (tasks d) (isoformat run_dt))
  /\ match (_add_notification_job (scheduler s) t run_dt).2 with
     | None =>
         log s' = (log s ++ [MessageBox (DlgScheduled t run_dt)])%list
     | Some e =>
         e <> ConflictingIdError
         /\ registered (scheduler s) t run_dt = false
         /\ log s' = (log s ++ [Uncaught e])%list
     end.
Proof.
  intros Hc Hd Hgt s'. subst s'.
  destruct s as [l sch0 cur i lg]; simpl in *. subst cur.
  unfold _schedule_reminder_for_current_list; simpl.
  rewrite Hgt, Hd; simpl.
  destruct (_add_notification_job sch0 t run_dt) as [sch [e|]] eqn:E; simpl.
  - rewrite dict_get_set_eq. split; [done|].
    destruct (add_notification_job_raises sch0 t run_dt e)
      as [? ?]; [by rewrite E|done].
  - by rewrite dict_get_set_eq.
Qed.
End ScheduleAnyScheduler.

(** C2, as stated: on a scheduler whose [add_job] raises a conflicting id
    at the first call and at the retry, the job is not registered, yet the
    reminder of the list has changed from empty to the text of the new
    time and the operation reports success. *)
Lemma schedule_failure_is_not_reported :
  let s' := _schedule_reminder_for_current_list at_9 today refused in
  registered (scheduler refused) "Work" at_9 = false
  /\ reminder_of "Work" (lists refused) = ""
  /\ reminder_of "Work" (lists s') = "2031-04-09T09:00:00"
  /\ log s' = [MessageBox (DlgScheduled "Work" at_9)].
Proof. repeat split; vm_compute; reflexivity. Qed.

Lemma schedule_sets_reminder_first_witness :
  dict_get "Work"
    (lists (_schedule_reminder_for_current_list at_9 today refused))
  = Some (mkTaskList ["a"; "b"] "2031-04-09T09:00:00").
Proof.
  refine (proj1 (schedule_sets_reminder_first refused "Work"
                   (mkTaskList ["a"; "b"] "") at_9 today _ _ _));
    vm_compute; reflexivity.
Defined.

(** ** Agreement of the stored reminders with the job store *)

Section Preservation.
Context {DT : Type} `{!Datetime DT}.
Implicit Types (l : Store) (sch : JobStore DT) (s : MemApp DT).

Local Abbreviation consistent l sch :=
  (jobs_sound l sch /\ jobs_complete l sch).

(** An entry is replaced by one with the same reminder. *)
Lemma consistent_same_reminder l sch t d d' :
  consistent l sch ->
  dict_get t l = Some d -> reminder d' = reminder d ->
  consistent (dict_set t d' l) sch.
Proof.
  intros [Hs Hc] Hd Hr. split.
  - intros id j Hj. destruct (Hs id j Hj) as (Hid & dj & Hdj & Hne & Hp).
    split; [done|]. rewrite dict_get_set. case_decide as E.
    + subst t. exists d'. rewrite Hd in Hdj. injection Hdj as <-.
      by rewrite Hr.
    + by exists dj.
  - intros t2 d2. rewrite dict_get_set. case_decide as E.
    + subst t2. intros [= <-]. rewrite Hr. by apply Hc.
    + apply Hc.
Qed.

(** A new list without a reminder. *)
Lemma consistent_create l sch t ts :
  consistent l sch ->
  dict_get t l = None ->
  consistent (dict_set t (mkTaskList ts "") l) sch.
Proof.
  intros [Hs Hc] Hd. split.
  - intros id j Hj. destruct (Hs id j Hj) as (Hid & dj & Hdj & Hne & Hp).
    split; [done|]. exists dj. split; [|done].
    rewrite dict_get_set_ne; [done|]. intros ->. congruence.
  - intros t2 d2. rewrite dict_get_set. case_decide as E.
    + intros [= <-]. done.
    + apply Hc.
Qed.

(** The reminder of a list is cleared and the job under its id taken
    out. *)
Lemma consistent_clear l sch t d ts :
  no_collision l -> consistent l sch ->
  dict_get t l = Some d ->
  consistent (dict_set t (mkTaskList ts "") l) (delete (_job_id_for t) sch).
Proof.
  intros Hnc [Hs Hc] Hd. split.
  - intros id j. rewrite lookup_delete_Some. intros [Hid Hj].
    destruct (Hs id j Hj) as (-> & dj & Hdj & Hne & Hp).
    split; [done|]. exists dj. split; [|done].
    rewrite dict_get_set_ne; [done|]. by intros ->.
  - intros t2 d2. rewrite dict_get_set. case_decide as E.
    + intros [= <-]. done.
    + intros Hd2 Hr. rewrite lookup_delete_ne; [by eapply Hc|].
      intros Hid. apply E. apply Hnc; [by rewrite Hd|by rewrite Hd2|done].
Qed.

(** A list leaves the store; the job under its id is taken out when its
    reminder was not empty. *)
Lemma consistent_delete l sch t :
  no_collision l -> consistent l sch ->
  consistent (dict_pop t l)
    (if truthy (reminder_of t l) then delete (_job_id_for t) sch else sch).
Proof.
  intros Hnc [Hs Hc]. unfold reminder_of.
  destruct (dict_get t l) as [d|] eqn:Hd; simpl.
  2:{ by rewrite dict_pop_absent. }
  destruct (truthy (reminder d)) eqn:Hr; split.
  - intros id j. rewrite lookup_delete_Some. intros [Hid Hj].
    destruct (Hs id j Hj) as (-> & dj & Hdj & Hne & Hp).
    split; [done|]. exists dj. split; [|done].
    rewrite dict_get_pop_ne; [done|]. by intros ->.
  - intros t2 d2. rewrite dict_get_pop. case_decide as E; [done|].
    intros Hd2 Hr2. rewrite lookup_delete_ne; [by eapply Hc|].
    intros Hid. apply E. apply Hnc; [by rewrite Hd|by rewrite Hd2|done].
  - intros id j Hj.
    destruct (Hs id j Hj) as (-> & dj & Hdj & Hne & Hp).
    split; [done|]. exists dj. split; [|done].
    rewrite dict_get_pop_ne; [done|]. intros ->.
    rewrite Hd in Hdj. injection Hdj as <-.
    apply truthy_false in Hr. done.
  - intros t2 d2. rewrite dict_get_pop. case_decide as E; [done|].
    apply Hc.
Qed.

(** A reminder is stored and a job for it put under the list's id. *)
Lemma consistent_schedule l sch t d r run_dt :
  consistent l sch ->
  dict_get t l = Some d ->
  r <> "" -> fromisoformat r = Some run_dt ->
  consistent (dict_set t (with_reminder r d) l)
    (<[_job_id_for t := mkJob t run_dt]> sch).
Proof.
  intros [Hs Hc] Hd Hr Hp. split.
  - intros id j. rewrite lookup_insert_Some.
    intros [[<- <-] | [Hid Hj]]; simpl.
    + split; [done|]. exists (with_reminder r d).
      by rewrite dict_get_set_eq.
    + destruct (Hs id j Hj) as (-> & dj & Hdj & Hne & Hpj).
      split; [done|]. exists dj. split; [|done].
      rewrite dict_get_set_ne; [done|]. by intros ->.
  - intros t2 d2. rewrite dict_get_set. case_decide as E.
    + subst t2. intros _ _. rewrite lookup_insert_eq. eauto.
    + intros Hd2 Hr2. rewrite lookup_insert_is_Some.
      destruct (decide (_job_id_for t = _job_id_for t2)); [by left|].
      right. split; [done|]. by eapply Hc.
Qed.

(** A list moves to a new title, its job with it. *)
Lemma consistent_rename l sch old new d :
  no_collision l -> consistent l sch ->
  dict_get old l = Some d -> dict_get new l = None ->
  consistent (dict_set new d (dict_pop old l)) (renamed_jobs old new d sch).
Proof.
  intros Hnc [Hs Hc] Hold Hnew.
  assert (Hon : old <> new) by (intros ->; congruence).
  assert (Hother : forall tj dj, dict_get tj l = Some dj -> tj <> old ->
            dict_get tj (dict_set new d (dict_pop old l)) = Some dj).
  { intros tj dj Hdj Hne. rewrite dict_get_set_ne by (intros ->; congruence).
    by rewrite dict_get_pop_ne. }
  unfold renamed_jobs. destruct (truthy (reminder d)) eqn:Hr.
  - apply truthy_true in Hr.
    destruct (Hc old d Hold Hr) as [j0 Hj0]. rewrite Hj0.
    destruct (Hs _ j0 Hj0) as (Hid0 & d0 & Hd0 & _ & Hp0).
    assert (job_title j0 = old) as Ht0.
    { apply Hnc; [by rewrite Hd0|by rewrite Hold|done]. }
    rewrite Ht0, Hold in Hd0. injection Hd0 as <-. rewrite Hp0.
    split.
    + intros id j. rewrite lookup_insert_Some.
      intros [[<- <-] | [Hid Hj]]; simpl.
      * split; [done|]. exists d. by rewrite dict_get_set_eq.
      * apply lookup_delete_Some in Hj as [Hid' Hj].
        destruct (Hs id j Hj) as (-> & dj & Hdj & Hne & Hpj).
        split; [done|]. exists dj. split; [|done].
        apply Hother; [done|]. by intros <-.
    + intros t2 d2. rewrite dict_get_set. case_decide as E.
      * subst t2. intros _ _. rewrite lookup_insert_eq. eauto.
      * rewrite dict_get_pop. case_decide as E2; [done|].
        intros Hd2 Hr2. rewrite lookup_insert_is_Some.
        destruct (decide (_job_id_for new = _job_id_for t2)); [by left|].
        right. split; [done|]. rewrite lookup_delete_ne; [by eapply Hc|].
        intros Hid. apply E2.
        apply Hnc; [by rewrite Hold|by rewrite Hd2|done].
  - apply truthy_false in Hr. split.
    + intros id j Hj.
      destruct (Hs id j Hj) as (-> & dj & Hdj & Hne & Hpj).
      split; [done|]. exists dj. split; [|done].
      apply Hother; [done|]. intros Ht. rewrite Ht, Hold in Hdj.
      injection Hdj as <-. done.
    + intros t2 d2. rewrite dict_get_set. case_decide as E.
      * intros [= <-]. done.
      * rewrite dict_get_pop. case_decide as E2; [done|]. apply Hc.
Qed.
End Preservation.

(** What each operation does to the store and to the job store. *)
Section Effects.
Context {DT : Type} `{!Datetime DT}.
Implicit Types (l : Store) (sch : JobStore DT) (s : MemApp DT).

Lemma select_effect s title :
  lists (select title s) = lists s
  /\ scheduler (select title s) = scheduler s.
Proof.
  unfold select. destruct (dict_mem title (lists s)); [|done].
  destruct (on_list_selected_frame (set_current (Some title) s))
    as (-> & -> & _). done.
Qed.

Lemma create_effect s title ok :
  let s' := _create_list_dialog title ok s in
  scheduler s' = scheduler s
  /\ (lists s' = lists s
      \/ dict_get title (lists s) = None
         /\ lists s' = dict_set title (mkTaskList [] "") (lists s)).
Proof.
  unfold _create_list_dialog.
  destruct (ok && truthy title); [|by auto].
  destruct (dict_mem title (lists s)) eqn:Hm; [by auto|].
  apply dict_mem_false in Hm.
  match goal with |- context [select_item title ?x] =>
    destruct (select_item_frame title x) as (-> & -> & _) end.
  match goal with |- context [_refresh_sidebar ?x] =>
    destruct (refresh_sidebar_frame x) as (-> & -> & _) end.
  simpl. auto.
Qed.

Lemma add_task_effect s text :
  let s' := _add_task_to_current_list text s in
  scheduler s' = scheduler s
  /\ (lists s' = lists s
      \/ exists t d ts, dict_get t (lists s) = Some d
           /\ lists s' = dict_set t (with_tasks ts d) (lists s)).
Proof.
  unfold _add_task_to_current_list.
  destruct (current s) as [t|]; [|by auto].
  destruct (truthy text); [|by auto].
  destruct (dict_get t (lists s)) as [d|] eqn:Hd; [|by auto].
  simpl. split; [done|]. right. eauto.
Qed.

Lemma remove_task_effect s cur :
  let s' := _remove_selected_task cur s in
  scheduler s' = scheduler s
  /\ (lists s' = lists s
      \/ exists t d ts, dict_get t (lists s) = Some d
           /\ lists s' = dict_set t (with_tasks ts d) (lists s)).
Proof.
  unfold _remove_selected_task.
  destruct (cur <? 0)%Z; [by auto|].
  destruct (current s) as [t|]; [|by auto].
  destruct (dict_get t (lists s)) as [d|] eqn:Hd; [|by auto].
  destruct (tasks d !! Z.to_nat cur); [|by auto].
  simpl. split; [done|]. right. eauto.
Qed.

Lemma delete_effect s confirm :
  let s' := _delete_selected_list confirm s in
  (lists s' = lists s /\ scheduler s' = scheduler s)
  \/ exists t,
       lists s' = dict_pop t (lists s)
       /\ scheduler s'
          = if truthy (reminder_of t (lists s))
            then delete (_job_id_for t) (scheduler s) else scheduler s.
Proof.
  destruct confirm.
  - destruct (current s) as [t|] eqn:Hc.
    + right. exists t. destruct (delete_mem s t Hc) as (? & ? & _). done.
    + left. unfold _delete_selected_list. by rewrite Hc.
  - left. unfold _delete_selected_list. by destruct (current s).
Qed.

Lemma rename_effect s new :
  let s' := _rename_current_list new s in
  (lists s' = lists s /\ scheduler s' = scheduler s)
  \/ exists old d,
       dict_get old (lists s) = Some d
       /\ dict_get new (lists s) = None
       /\ lists s' = dict_set new d (dict_pop old (lists s))
       /\ scheduler s' = renamed_jobs old new d (scheduler s).
Proof.
  destruct (current s) as [old|] eqn:Hc.
  2:{ left. unfold _rename_current_list. by rewrite Hc. }
  destruct (truthy new) eqn:Hn.
  2:{ left. unfold _rename_current_list. by rewrite Hc, Hn. }
  destruct (decide (new = old)) as [->|Hne].
  { left. unfold _rename_current_list. rewrite Hc, Hn. simpl.
    by rewrite decide_True. }
  destruct (dict_get new (lists s)) as [d'|] eqn:Hnew.
  { left. unfold _rename_current_list. rewrite Hc, Hn. simpl.
    rewrite decide_False by done. unfold dict_mem. by rewrite Hnew. }
  destruct (dict_get old (lists s)) as [d|] eqn:Hold.
  2:{ left. unfold _rename_current_list. rewrite Hc, Hn. simpl.
      rewrite decide_False by done. unfold dict_mem.
      by rewrite Hnew, Hold. }
  right. exists old, d. apply truthy_true in Hn.
  destruct (rename_mem s old new d Hc Hn Hne Hnew Hold) as (? & ? & _).
  done.
Qed.

Lemma schedule_effect s run_dt now :
  let s' := _schedule_reminder_for_current_list run_dt now s in
  (lists s' = lists s /\ scheduler s' = scheduler s)
  \/ exists t d,
       dict_get t (lists s) = Some d
       /\ lists s' = dict_set t (with_reminder (isoformat run_dt) d) (lists s)
       /\ scheduler s'
          = <[_job_id_for t := mkJob t run_dt]> (scheduler s).
Proof.
  destruct (current s) as [t|] eqn:Hc.
  2:{ left. unfold _schedule_reminder_for_current_list. by rewrite Hc. }
  destruct (dt_compare run_dt now) as [[]|] eqn:Hgt;
    try (left; unfold _schedule_reminder_for_current_list;
         by rewrite Hc, Hgt).
  destruct (dict_get t (lists s)) as [d|] eqn:Hd.
  2:{ left. unfold _schedule_reminder_for_current_list.
      by rewrite Hc, Hgt, Hd. }
  right. exists t, d. rewrite (schedule_mem s t d run_dt now Hc Hd Hgt).
  done.
Qed.

Lemma clear_effect s :
  let s' := _clear_reminder_for_current_list s in
  (lists s' = lists s /\ scheduler s' = scheduler s)
  \/ exists t d,
       dict_get t (lists s) = Some d
       /\ lists s' = dict_set t (mkTaskList (tasks d) "") (lists s)
       /\ scheduler s' = delete (_job_id_for t) (scheduler s).
Proof.
  unfold _clear_reminder_for_current_list.
  destruct (current s) as [t|]; [|by left].
  destruct (dict_get t (lists s)) as [d|] eqn:Hd; [|by left].
  destruct (truthy (reminder d)); simpl; [|by left].
  right. exists t, d. by rewrite try_remove_job_mem.
Qed.

Lemma mark_done_effect s :
  let s' := _mark_list_done s in
  (lists s' = lists s /\ scheduler s' = scheduler s)
  \/ exists t d,
       dict_get t (lists s) = Some d
       /\ lists s'
          = dict_set t (mkTaskList (map (String.append "✔ ") (tasks d)) "")
              (lists s)
       /\ scheduler s' = delete (_job_id_for t) (scheduler s).
Proof.
  unfold _mark_list_done.
  destruct (current s) as [t|]; [|by left].
  destruct (dict_get t (lists s)) as [d|] eqn:Hd; [|by left].
  right. exists t, d. simpl.
  match goal with |- context [_on_list_selected ?x] =>
    destruct (on_list_selected_frame x) as (-> & -> & _) end.
  simpl. by rewrite try_remove_job_mem.
Qed.

Lemma fire_effect s id sink_ok write_ok :
  let s' := fire id sink_ok write_ok s in
  match scheduler s !! id with
  | None => s' = s
  | Some j =>
      scheduler s' = delete id (scheduler s)
      /\ match dict_get (job_title j) (lists s) with
         | Some d =>
             lists s'
             = dict_set (job_title j) (mkTaskList (tasks d) "") (lists s)
         | None => lists s' = lists s
         end
  end.
Proof.
  unfold fire. destruct (scheduler s !! id) as [j|]; [|done].
  destruct (dict_get (job_title j) (lists s)) as [d|] eqn:Hd.
  - match goal with |- context [notify _ _ _ ?x] =>
      destruct (notify_present x (job_title j) sink_ok write_ok d Hd)
        as (-> & -> & _) end.
    done.
  - rewrite notify_absent by done. done.
Qed.
End Effects.

Section Invariant.
Context {DT : Type} `{!Datetime DT}.
Implicit Types (l : Store) (sch : JobStore DT) (s : MemApp DT).

Local Abbreviation consistent l sch :=
  (jobs_sound l sch /\ jobs_complete l sch).

Lemma step_consistent s o :
  op_ok o -> no_collision (lists s) ->
  consistent (lists s) (scheduler s) ->
  consistent (lists (step s o)) (scheduler (step s o)).
Proof.
  intros Hok Hnc Hinv. destruct o; simpl.
  - destruct (select_effect s title) as (-> & ->). done.
  - destruct (create_effect s title ok) as (-> & [-> | [Hd ->]]); [done|].
    by apply consistent_create.
  - destruct (add_task_effect s text)
      as (-> & [-> | (t & d & ts & Hd & ->)]); [done|].
    by apply (consistent_same_reminder _ _ t d).
  - destruct (remove_task_effect s cur)
      as (-> & [-> | (t & d & ts & Hd & ->)]); [done|].
    by apply (consistent_same_reminder _ _ t d).
  - destruct (delete_effect s confirm) as [[-> ->] | (t & -> & ->)]; [done|].
    by apply consistent_delete.
  - destruct (rename_effect s new_title)
      as [[-> ->] | (old & d & Hold & Hnew & -> & ->)]; [done|].
    by apply consistent_rename.
  - destruct (schedule_effect s run_dt now)
      as [[-> ->] | (t & d & Hd & -> & ->)]; [done|].
    destruct Hok as [Hne Hrt]. by apply consistent_schedule.
  - destruct (clear_effect s) as [[-> ->] | (t & d & Hd & -> & ->)]; [done|].
    by apply (consistent_clear _ _ t d).
  - destruct (mark_done_effect s)
      as [[-> ->] | (t & d & Hd & -> & ->)]; [done|].
    by apply (consistent_clear _ _ t d).
  - done.
  - assert (E := fire_effect s id sink_ok write_ok). cbv zeta in E.
    destruct (scheduler s !! id) as [j|] eqn:Hj; [|by rewrite E].
    destruct E as [-> E].
    destruct (proj1 Hinv id j Hj) as (-> & d & Hd & _).
    rewrite Hd in E. rewrite E.
    by apply (consistent_clear _ _ _ d).
Qed.

Lemma run_consistent ops s :
  consistent (lists s) (scheduler s) ->
  collision_free s ops ->
  consistent (lists (run s ops)) (scheduler (run s ops))
  /\ no_collision (lists (run s ops)).
Proof.
  revert s. induction ops as [|o r IH]; intros s Hinv Hcf; simpl in *.
  - by destruct Hcf.
  - destruct Hcf as (Hnc & Hok & Hcf). apply IH; [|done].
    by apply step_consistent.
Qed.

Lemma collision_free_take ops s k :
  collision_free s ops -> collision_free s (take k ops).
Proof.
  revert s k. induction ops as [|o r IH]; intros s [|k] Hcf; simpl in *;
    try done.
  - by destruct Hcf.
  - destruct Hcf as (Hnc & Hok & Hcf). auto.
Qed.

Lemma consistent_agrees s :
  no_collision (lists s) ->
  consistent (lists s) (scheduler s) ->
  agrees s.
Proof.
  intros Hnc [Hs Hc] t d Hd.
  assert (Hown : forall j, scheduler s !! _job_id_for t = Some j ->
            job_title j = t /\ reminder d <> ""
            /\ fromisoformat (reminder d) = Some (run_date j)).
  { intros j Hj. destruct (Hs _ j Hj) as (Hid & dj & Hdj & Hne & Hp).
    assert (job_title j = t) as Ht.
    { apply Hnc; [by rewrite Hdj|by rewrite Hd|done]. }
    rewrite Ht, Hd in Hdj. injection Hdj as <-. done. }
  split.
  - intros Hr. destruct (scheduler s !! _job_id_for t) as [j|] eqn:Hj;
      [|done]. destruct (Hown j eq_refl) as (_ & Hne & _). done.
  - intros Hr. destruct (Hc t d Hd Hr) as [j Hj]. exists j.
    destruct (Hown j Hj) as (? & _ & ?). done.
Qed.

Lemma filter_key_absent (r : list (string * Job DT)) id :
  id ∉ r.*1 -> filter (fun p => p.1 = id) r = [].
Proof.
  induction r as [|[k j] r IH]; simpl; [done|].
  intros Hn. apply not_elem_of_cons in Hn as [Hne Hn].
  rewrite filter_cons_False by (simpl; congruence). auto.
Qed.

(** The job store holds at most one job under an id. *)
Lemma at_most_one_job sch id :
  length (filter (fun p => p.1 = id) (map_to_list sch)) <= 1.
Proof.
  assert (Hnd := NoDup_fst_map_to_list sch).
  induction (map_to_list sch) as [|[k j] r IH]; simpl; [lia|].
  apply NoDup_cons in Hnd as [Hk Hnd].
  rewrite filter_cons. case_decide as E; simpl in *; [|auto].
  subst k. rewrite filter_key_absent by done. simpl. lia.
Qed.

(** The visits of the start-up pass, with the titles still to come. *)
Lemma rearm_visit_consistent now s title rest :
  title ∉ rest ->
  jobs_sound (lists s) (scheduler s) ->
  (forall id j, scheduler s !! id = Some j ->
     job_title j ∉ title :: rest) ->
  (forall t d, dict_get t (lists s) = Some d -> reminder d <> "" ->
     t ∉ title :: rest -> is_Some (scheduler s !! _job_id_for t)) ->
  let s' := rearm_visit now s title in
  jobs_sound (lists s') (scheduler s')
  /\ (forall id j, scheduler s' !! id = Some j -> job_title j ∉ rest)
  /\ (forall t d, dict_get t (lists s') = Some d -> reminder d <> "" ->
        t ∉ rest -> is_Some (scheduler s' !! _job_id_for t)).
Proof.
  intros Hfresh Hs Hv Hc s'.
  assert (Hkeep :
    jobs_sound (lists s) (scheduler s)
    /\ (forall id j, scheduler s !! id = Some j -> job_title j ∉ rest)
    /\ (forall t d, dict_get t (lists s) = Some d -> reminder d <> "" ->
          t <> title -> t ∉ rest ->
          is_Some (scheduler s !! _job_id_for t))).
  { split; [done|]. split.
    - intros id j Hj. specialize (Hv id j Hj).
      by apply not_elem_of_cons in Hv as [_ ?].
    - intros t d Hd Hr Hne Hn. apply (Hc t d Hd Hr).
      by apply not_elem_of_cons. }
  destruct Hkeep as (_ & Hv' & Hc').
  destruct (dict_get title (lists s)) as [data|] eqn:Hd.
  2:{ subst s'. unfold rearm_visit. rewrite Hd.
      split; [done|]. split; [done|]. intros t d Ht Hr Hn.
      apply (Hc' t d Ht Hr); [|done]. intros ->. congruence. }
  subst s'. rewrite (rearm_visit_mem now s title data Hd).
  assert (Hcleared :
    let s' := set_lists
                (dict_set title (with_reminder "" data) (lists s)) s in
    jobs_sound (lists s') (scheduler s')
    /\ (forall id j, scheduler s' !! id = Some j -> job_title j ∉ rest)
    /\ (forall t d, dict_get t (lists s') = Some d -> reminder d <> "" ->
          t ∉ rest -> is_Some (scheduler s' !! _job_id_for t))).
  { simpl. split; [|split; [done|]].
    - intros id j Hj. destruct (Hs id j Hj) as (Hid & dj & Hdj & Hne & Hp).
      split; [done|]. exists dj. split; [|done].
      rewrite dict_get_set_ne; [done|]. intros Ht.
      specialize (Hv id j Hj). apply not_elem_of_cons in Hv as [Hv _].
      by apply Hv.
    - intros t d. rewrite dict_get_set. case_decide as E.
      + intros [= <-]. done.
      + intros Ht Hr Hn. apply (Hc' t d Ht Hr); [by intros ->|done]. }
  destruct (truthy (reminder data)) eqn:Hr.
  2:{ apply truthy_false in Hr. split; [done|]. split; [done|].
      intros t d Ht Hrt Hn. apply (Hc' t d Ht Hrt); [|done].
      intros ->. rewrite Hd in Ht. injection Ht as <-. done. }
  apply truthy_true in Hr.
  destruct (fromisoformat (reminder data)) as [run_dt|] eqn:Hp; [|done].
  destruct (dt_compare run_dt now) as [[]|]; try done.
  simpl. split; [|split].
  - intros id j. rewrite lookup_insert_Some.
    intros [[<- <-] | [Hid Hj]]; simpl; [|by apply Hs].
    split; [done|]. by exists data.
  - intros id j. rewrite lookup_insert_Some.
    intros [[<- <-] | [Hid Hj]]; simpl; [done|by eapply Hv'].
  - intros t d Ht Hrt Hn. rewrite lookup_insert_is_Some.
    destruct (decide (t = title)) as [->|Hne]; [by left|].
    destruct (decide (_job_id_for title = _job_id_for t)); [by left|].
    right. split; [done|]. by apply (Hc' t d).
Qed.

Lemma rearm_fold_consistent now titles s :
  NoDup titles ->
  jobs_sound (lists s) (scheduler s) ->
  (forall id j, scheduler s !! id = Some j -> job_title j ∉ titles) ->
  (forall t d, dict_get t (lists s) = Some d -> reminder d <> "" ->
     t ∉ titles -> is_Some (scheduler s !! _job_id_for t)) ->
  consistent (lists (fold_left (rearm_visit now) titles s))
    (scheduler (fold_left (rearm_visit now) titles s)).
Proof.
  revert s. induction titles as [|title rest IH]; intros s Hnd Hs Hv Hc;
    simpl.
  - split; [done|]. intros t d Hd Hr. apply (Hc t d Hd Hr).
    apply not_elem_of_nil.
  - apply NoDup_cons in Hnd as [Hfresh Hnd].
    destruct (rearm_visit_consistent now s title rest Hfresh Hs Hv Hc)
      as (Hs' & Hv' & Hc').
    by apply IH.
Qed.

Lemma start_consistent f now :
  file_ok f ->
  consistent (lists (start f now)) (scheduler (start f now)).
Proof.
  intros Hf. unfold start, init, _schedule_existing_reminders.
  set (s0 := _load_data f _).
  assert (scheduler s0 = ∅ /\ NoDup (dict_keys (lists s0))) as (Hsch & Hnd).
  { subst s0. destruct f; simpl; split; try done; apply NoDup_nil_2. }
  apply rearm_fold_consistent; [done|..].
  - intros id j. rewrite Hsch, lookup_empty. done.
  - intros id j. rewrite Hsch, lookup_empty. done.
  - intros t d Hd _ Hn. exfalso. apply Hn.
    apply dict_get_is_Some. by rewrite Hd.
Qed.

(** C1, amended: take a run of the application from its start-up (the
    file decoded to a dictionary, the pass over the saved reminders, then
    any sequence of select, create, add and remove task, delete, rename,
    schedule, clear, mark-done, save and fire steps, each fire running to
    its end before the next step) along which no two titles of the store
    share a job id.  At every instant of the run the job store holds at
    most one job under the id of a title, and every list of the store
    either has an empty reminder and no job under its id, or has as
    reminder the text of the fire time of the job under its id, a job made
    for that very list. *)
Theorem reminders_agree_with_jobs f now ops :
  file_ok f ->
  collision_free (start f now) ops ->
  forall k,
    let s := run (start f now) (take k ops) in
    agrees s
    /\ forall t,
         length (filter (fun p => p.1 = _job_id_for t)
                   (map_to_list (scheduler s))) <= 1.
Proof.
  intros Hf Hcf k s. split; [|intros t; apply at_most_one_job].
  destruct (run_consistent (take k ops) (start f now)) as [Hinv Hnc].
  - by apply start_consistent.
  - by apply collision_free_take.
  - by apply consistent_agrees.
Qed.
End Invariant.

(** A store whose titles have distinct job ids has no collision. *)
Lemma no_collision_nodup (l : Store) :
  NoDup (_job_id_for <$> dict_keys l) -> no_collision l.
Proof.
  intros Hnd t t' Ht Ht' Hid.
  apply dict_get_is_Some in Ht, Ht'.
  induction (dict_keys l) as [|k r IH]; [by apply elem_of_nil in Ht|].
  rewrite fmap_cons in Hnd. apply NoDup_cons in Hnd as [Hk Hnd].
  apply elem_of_cons in Ht as [->|Ht], Ht' as [->|Ht']; auto.
  - exfalso. apply Hk. rewrite Hid. by apply list_elem_of_fmap_2.
  - exfalso. apply Hk. rewrite <- Hid. by apply list_elem_of_fmap_2.
Qed.

(** C1, as stated: ["a b"] and ["a_b"] share the job id
    ["reminder__a_b"].  After a reminder on each, the one job under that
    id is the job of ["a_b"], with another fire time than the reminder
    stored for ["a b"]; after the reminder of ["a_b"] is cleared as well,
    ["a b"] still has its reminder and no job is under its id. *)
Lemma collision_breaks_agreement :
  let s6 := run (start Missing today) (take 6 colliding_ops) in
  let s7 := run (start Missing today) colliding_ops in
  reminder_of "a b" (lists s6) = "2031-04-09T09:00:00"
  /\ scheduler s6 !! _job_id_for "a b" = Some (mkJob "a_b" at_18)
  /\ reminder_of "a b" (lists s7) = "2031-04-09T09:00:00"
  /\ scheduler s7 !! _job_id_for "a b" = None
  /\ ~ agrees s7.
Proof.
  repeat split; try (vm_compute; reflexivity).
  intros H.
  destruct (H "a b" (mkTaskList [] "2031-04-09T09:00:00")) as [_ Hjob];
    [vm_compute; reflexivity|].
  destruct Hjob as (j & Hj & _); [discriminate|].
  vm_compute in Hj. discriminate.
Qed.

Lemma calm_ops_collision_free :
  collision_free (start (Content saved_store) today) calm_ops.
Proof.
  repeat split;
    try (apply no_collision_nodup, (bool_decide_unpack _); vm_compute;
         exact I);
    try (vm_compute; discriminate);
    try (vm_compute; reflexivity).
Qed.

Lemma reminders_agree_with_jobs_witness :
  agrees (run (start (Content saved_store) today) calm_ops).
Proof.
  refine (proj1 (reminders_agree_with_jobs (Content saved_store) today calm_ops
                   _ calm_ops_collision_free (length calm_ops))).
  apply (bool_decide_unpack _). vm_compute. exact I.
Defined.

Example calm_ops_end :
  let s := run (start (Content saved_store) today) calm_ops in
  lists s
  = [ ("Old", mkTaskList ["x"] "");
      ("New", mkTaskList ["✔ y"] "");
      ("Odd", mkTaskList [] "");
      ("Free", mkTaskList ["z"] "");
      ("Work", mkTaskList [] "");
      ("Chores", mkTaskList ["Buy milk"] "2031-04-09T09:00:00") ]
  /\ map_to_list (scheduler s) = [("reminder__Chores", mkJob "Chores" at_9)].
Proof. split; vm_compute; reflexivity. Qed.


(** * Further properties of the program *)

(** ** Job ids of titles without underscores *)

Lemma replace_space_inj (t t' : string) :
  mentions "_" t = false -> mentions "_" t' = false ->
  replace_space t = replace_space t' -> t = t'.
Proof.
  revert t'. induction t as [|c r IH]; intros [|c' r']; simpl; try done.
  intros Hc Hc' [= Hh Ht].
  apply orb_false_iff in Hc as [Hc Hr], Hc' as [Hc' Hr'].
  rewrite (IH r' Hr Hr' Ht). f_equal.
  destruct (Ascii.eqb c " ") eqn:E, (Ascii.eqb c' " ") eqn:E'.
  - apply Ascii.eqb_eq in E, E'. congruence.
  - rewrite <- Hh in Hc'. discriminate.
  - rewrite Hh in Hc. discriminate.
  - done.
Qed.

(** X1: two different titles that contain no underscore never share a job
    id: a collision needs an underscore in one of the two titles. *)
Theorem job_ids_differ_without_underscore (t t' : string) :
  mentions "_" t = false -> mentions "_" t' = false ->
  t <> t' -> _job_id_for t <> _job_id_for t'.
Proof.
  intros Ht Ht' Hne Hid. apply Hne. unfold _job_id_for in Hid.
  apply replace_space_inj; [done..|].
  by simplify_eq.
Qed.

Lemma job_ids_differ_without_underscore_witness :
  _job_id_for "Buy milk" <> _job_id_for "Buymilk".
Proof.
  apply job_ids_differ_without_underscore; [reflexivity..|discriminate].
Defined.

(** ** Lists and tasks *)

Section DictMore.
Context {V : Type}.
Implicit Types (k : string) (v : V) (d : list (string * V)).

Lemma dict_set_same k v d : dict_get k d = Some v -> dict_set k v d = d.
Proof.
  induction d as [|[k' v'] r IH]; simpl; [done|].
  destruct (decide (k = k')) as [->|]; [by intros [= ->]|].
  intros H. by rewrite IH.
Qed.

Lemma dict_set_set k v1 v2 d :
  dict_set k v2 (dict_set k v1 d) = dict_set k v2 d.
Proof.
  induction d as [|[k' v'] r IH]; simpl.
  - by rewrite decide_True.
  - destruct (decide (k = k')) as [->|]; simpl.
    + by rewrite decide_True.
    + rewrite decide_False by done. by rewrite IH.
Qed.

Lemma dict_keys_set_absent k v d :
  dict_get k d = None -> dict_keys (dict_set k v d) = (dict_keys d ++ [k])%list.
Proof.
  induction d as [|[k' v'] r IH]; simpl; [done|].
  destruct (decide (k = k')); [done|]. intros H. simpl. f_equal. by apply IH.
Qed.

Lemma dict_keys_pop k d :
  dict_keys (dict_pop k d) = filter (fun k' => k' <> k) (dict_keys d).
Proof.
  induction d as [|[k' v'] r IH]; simpl; [done|].
  rewrite filter_cons. simpl.
  destruct (decide (k = k')) as [->|].
  - rewrite decide_False by (intros H; by apply H). apply IH.
  - rewrite decide_True by done. simpl. f_equal. apply IH.
Qed.
End DictMore.

Lemma delete_last {A} (l : list A) (x : A) :
  delete (length l) (l ++ [x])%list = l.
Proof. induction l as [|y l IH]; simpl; [done|]. by rewrite IH. Qed.

Section ListsAndTasks.
Context {DT S : Type} `{!Datetime DT} `{!Scheduler DT S}.
Implicit Types s : App DT S.

Lemma create_list_cases s title ok :
  let s' := _create_list_dialog title ok s in
  (s' = s /\ (ok = false \/ title = ""))
  \/ (s' = emit (MessageBox DlgExists) s
      /\ is_Some (dict_get title (lists s)))
  \/ (ok = true /\ title <> "" /\ dict_get title (lists s) = None
      /\ lists s' = dict_set title (mkTaskList [] "") (lists s)
      /\ scheduler s' = scheduler s
      /\ current s' = Some title
      /\ reminder_info s' = InfoNone
      /\ log s' = log s).
Proof.
  unfold _create_list_dialog. destruct ok; simpl; [|by left; auto].
  destruct (truthy title) eqn:Ht.
  2:{ apply truthy_false in Ht. left. auto. }
  apply truthy_true in Ht.
  destruct (dict_get title (lists s)) as [d|] eqn:Hd.
  { right. left. unfold dict_mem. rewrite Hd. eauto. }
  right. right. rewrite (proj2 (dict_mem_false title (lists s)) Hd).
  destruct s as [l sch cur i lg]; simpl in *.
  assert (forall c j,
    select_item title
      (mkApp (dict_set title (mkTaskList [] "") l) sch c j lg : App DT S)
    = mkApp (dict_set title (mkTaskList [] "") l) sch (Some title) InfoNone lg)
    as Hsel.
  { intros c j. unfold select_item, dict_mem; simpl.
    rewrite dict_get_set_eq. unfold _on_list_selected, reminder_of; simpl.
    by rewrite dict_get_set_eq. }
  destruct cur as [c|]; unfold _refresh_sidebar; simpl.
  - unfold _on_list_selected; simpl. unfold set_info; simpl. by rewrite Hsel.
  - unfold set_lists; simpl. by rewrite Hsel.
Qed.

(** X2: creating a list never touches a list that exists: whatever the
    dialog returned, every entry of the store is what it was, and so is the
    scheduler.  With the dialog cancelled, the title empty or the title
    taken, the store is left as a whole. *)
Theorem create_list_keeps_existing s title ok t d :
  dict_get t (lists s) = Some d ->
  let s' := _create_list_dialog title ok s in
  dict_get t (lists s') = Some d
  /\ scheduler s' = scheduler s
  /\ (ok = false \/ title = "" \/ is_Some (dict_get title (lists s)) ->
      lists s' = lists s).
Proof.
  intros Hd s'.
  destruct (create_list_cases s title ok)
    as [[E _] | [[E _] | (Hok & Hne & Hnew & El & Es & _)]]; fold s' in E || idtac.
  - rewrite E. auto.
  - rewrite E. simpl. auto.
  - fold s' in El, Es. rewrite El, Es. split; [|split; [done|]].
    + rewrite dict_get_set_ne; [done|]. intros ->. congruence.
    + intros [? | [? | [? ?]]]; congruence.
Qed.

(** X3: a confirmed dialog with a non-empty title that is not in the store
    appends the list, with no task and no reminder, after the lists that
    were there, selects it, shows "No reminder set", leaves the scheduler
    alone and shows no message. *)
Theorem create_list_appends s title :
  title <> "" ->
  dict_get title (lists s) = None ->
  let s' := _create_list_dialog title true s in
  dict_keys (lists s') = (dict_keys (lists s) ++ [title])%list
  /\ dict_get title (lists s') = Some (mkTaskList [] "")
  /\ current s' = Some title
  /\ reminder_info s' = InfoNone
  /\ scheduler s' = scheduler s
  /\ log s' = log s.
Proof.
  intros Hne Hnew s'.
  destruct (create_list_cases s title true)
    as [[_ [?|?]] | [[_ [? ?]] | (_ & _ & _ & El & Es & Ec & Ei & Elog)]];
    try congruence.
  fold s' in El, Es, Ec, Ei, Elog. rewrite El.
  split; [by apply dict_keys_set_absent|].
  split; [apply dict_get_set_eq|]. done.
Qed.

(** X4: adding a task to the selected list and then removing the last row
    gives the store back as it was; the removal reports the task that was
    added. *)
Theorem add_then_remove_last s t d text :
  current s = Some t ->
  dict_get t (lists s) = Some d ->
  text <> "" ->
  let s1 := _add_task_to_current_list text s in
  let s2 := _remove_selected_task (Z.of_nat (length (tasks d))) s1 in
  tasks_of t (lists s1) = (tasks d ++ [text])%list
  /\ lists s2 = lists s
  /\ scheduler s2 = scheduler s
  /\ current s2 = current s
  /\ log s2 = (log s ++ [MessageBox (DlgRemoved text)])%list.
Proof.
  intros Hc Hd Ht s1 s2. apply truthy_true in Ht.
  destruct s as [l sch cur i lg]; simpl in *. subst cur.
  subst s2 s1. unfold _add_task_to_current_list; simpl. rewrite Ht, Hd.
  unfold tasks_of; simpl. rewrite dict_get_set_eq. split; [done|].
  unfold _remove_selected_task; simpl.
  destruct (Z.of_nat (length (tasks d)) <? 0)%Z eqn:E;
    [apply Z.ltb_lt in E; lia|].
  rewrite dict_get_set_eq. simpl. rewrite Nat2Z.id.
  rewrite lookup_app_r, Nat.sub_diag by lia. simpl.
  rewrite dict_set_set, delete_last.
  replace (with_tasks (tasks d) (with_tasks (tasks d ++ [text]) d)) with d
    by (by destruct d).
  by rewrite dict_set_same.
Qed.

(** X5: removing a row of the selected list.  A negative row does nothing
    at all.  A row past the last task raises [IndexError] and leaves the
    store alone.  A row inside takes out that one task, keeps the others in
    their order and the reminder as it was, and reports the task taken
    out. *)
Theorem remove_task_bounds s t d cur :
  current s = Some t ->
  dict_get t (lists s) = Some d ->
  let s' := _remove_selected_task cur s in
  ((cur < 0)%Z -> s' = s)
  /\ ((Z.of_nat (length (tasks d)) <= cur)%Z ->
      s' = emit (Uncaught IndexError) s)
  /\ ((0 <= cur < Z.of_nat (length (tasks d)))%Z ->
      exists removed,
        tasks d !! Z.to_nat cur = Some removed
        /\ dict_get t (lists s')
           = Some (mkTaskList
                     (take (Z.to_nat cur) (tasks d)
                      ++ drop (Datatypes.S (Z.to_nat cur)) (tasks d))%list
                     (reminder d))
        /\ (forall t', t' <> t -> dict_get t' (lists s') = dict_get t' (lists s))
        /\ log s' = (log s ++ [MessageBox (DlgRemoved removed)])%list).
Proof.
  intros Hc Hd s'. subst s'. unfold _remove_selected_task.
  split; [|split].
  - intros Hneg. by rewrite (proj2 (Z.ltb_lt cur 0) Hneg).
  - intros Hbig. rewrite (proj2 (Z.ltb_ge cur 0)) by lia.
    rewrite Hc, Hd. rewrite (proj2 (lookup_ge_None (tasks d) _)) by lia. done.
  - intros Hin. rewrite (proj2 (Z.ltb_ge cur 0)) by lia.
    rewrite Hc, Hd.
    destruct (lookup_lt_is_Some_2 (tasks d) (Z.to_nat cur)) as [removed Hr];
      [lia|].
    rewrite Hr. exists removed. split; [done|]. simpl.
    rewrite dict_get_set_eq. split.
    { unfold with_tasks. by rewrite delete_take_drop. }
    split; [|done]. intros t' Hne. by rewrite dict_get_set_ne.
Qed.

(** X6: "Mark Done" puts the check mark in front of every task each time it
    is pressed: pressed twice, every task carries two marks.  The reminder
    is empty afterwards and the list stays selected. *)
Theorem mark_done_twice s t d :
  current s = Some t ->
  dict_get t (lists s) = Some d ->
  let s2 := _mark_list_done (_mark_list_done s) in
  dict_get t (lists s2)
  = Some (mkTaskList (map (String.append "✔ ✔ ") (tasks d)) "")
  /\ current s2 = Some t
  /\ log s2 = (log s ++ [MessageBox (DlgDone t); MessageBox (DlgDone t)])%list.
Proof.
  intros Hc Hd s2.
  assert (Hone : forall (s0 : App DT S) d0,
    current s0 = Some t -> dict_get t (lists s0) = Some d0 ->
    dict_get t (lists (_mark_list_done s0))
    = Some (mkTaskList (map (String.append "✔ ") (tasks d0)) "")
    /\ current (_mark_list_done s0) = Some t
    /\ log (_mark_list_done s0) = (log s0 ++ [MessageBox (DlgDone t)])%list).
  { intros s0 d0 Hc0 Hd0. unfold _mark_list_done. rewrite Hc0, Hd0. simpl.
    match goal with |- context [_on_list_selected ?x] =>
      destruct (on_list_selected_frame x) as (-> & _ & -> & ->) end.
    simpl. by rewrite dict_get_set_eq. }
  destruct (Hone s d Hc Hd) as (Hd1 & Hc1 & Hl1).
  destruct (Hone _ _ Hc1 Hd1) as (Hd2 & Hc2 & Hl2).
  subst s2. rewrite Hd2, Hc2, Hl2, Hl1. simpl.
  rewrite <- app_assoc. split; [|done].
  do 2 f_equal. rewrite map_map. by apply map_ext.
Qed.
End ListsAndTasks.

Lemma errands_current : current errands = Some "Errands".
Proof. vm_compute. reflexivity. Qed.

Lemma create_list_keeps_existing_witness :
  dict_get "Errands" (lists (_create_list_dialog "Errands" true errands))
  = Some (mkTaskList ["Buy milk"; "Pay bills"] "2031-04-09T09:00:00").
Proof.
  exact (proj1 (create_list_keeps_existing errands "Errands" true "Errands" _
                  errands_entry)).
Defined.

Lemma create_list_appends_witness :
  dict_keys (lists (_create_list_dialog "Work" true errands))
  = ["Errands"; "Work"].
Proof.
  refine (proj1 (create_list_appends errands "Work" _ _));
    [discriminate|vm_compute; reflexivity].
Defined.

Lemma add_then_remove_last_witness :
  lists (_remove_selected_task 2 (_add_task_to_current_list "Call" errands))
  = lists errands.
Proof.
  refine (proj1 (proj2 (add_then_remove_last errands "Errands" _ "Call"
                          errands_current errands_entry _))).
  discriminate.
Defined.

Lemma remove_task_bounds_witness :
  _remove_selected_task (-1) errands = errands
  /\ _remove_selected_task 2 errands = emit (Uncaught IndexError) errands.
Proof.
  destruct (remove_task_bounds errands "Errands" _ (-1) errands_current
              errands_entry) as (Hneg & _).
  destruct (remove_task_bounds errands "Errands" _ 2 errands_current
              errands_entry) as (_ & Hbig & _).
  split; [apply Hneg; lia|apply Hbig; simpl; lia].
Defined.

Lemma mark_done_twice_witness :
  dict_get "Errands" (lists (_mark_list_done (_mark_list_done errands)))
  = Some (mkTaskList ["✔ ✔ Buy milk"; "✔ ✔ Pay bills"] "").
Proof.
  exact (proj1 (mark_done_twice errands "Errands" _ errands_current
                  errands_entry)).
Defined.

(** ** Clearing, deleting, renaming back and firing twice *)

Section ClearAnyScheduler.
Context {DT S : Type} `{!Datetime DT} `{!Scheduler DT S}.
Implicit Types s : App DT S.

(** X7: clearing the reminder of the selected list empties the stored
    reminder, shows "No reminder set" and reports "Cleared" whether
    [remove_job] returned or raised: a failure of the scheduler is swallowed
    and never keeps the store from being updated.  The tasks and the other
    lists are untouched. *)
Theorem clear_reminder_despite_scheduler s t d :
  current s = Some t ->
  dict_get t (lists s) = Some d ->
  reminder d <> "" ->
  let s' := _clear_reminder_for_current_list s in
  dict_get t (lists s') = Some (mkTaskList (tasks d) "")
  /\ (forall t', t' <> t -> dict_get t' (lists s') = dict_get t' (lists s))
  /\ reminder_info s' = InfoNone
  /\ log s' = (log s ++ [MessageBox DlgCleared])%list
  /\ scheduler s'
     = match remove_job (scheduler s) (_job_id_for t) with
       | inr sch => sch
       | inl _ => scheduler s
       end.
Proof.
  intros Hc Hd Hr s'. subst s'. apply truthy_true in Hr.
  unfold _clear_reminder_for_current_list. rewrite Hc, Hd, Hr. simpl.
  rewrite dict_get_set_eq. split; [done|].
  split; [|done]. intros t' Hne. by rewrite dict_get_set_ne.
Qed.
End ClearAnyScheduler.

Lemma clear_reminder_despite_scheduler_witness :
  dict_get "Errands" (lists (_clear_reminder_for_current_list errands))
  = Some (mkTaskList ["Buy milk"; "Pay bills"] "").
Proof.
  refine (proj1 (clear_reminder_despite_scheduler errands "Errands" _
                   errands_current errands_entry _)).
  discriminate.
Defined.

Section MemMore.
Context {DT : Type} `{!Datetime DT}.
Implicit Types (sch : JobStore DT) (s : MemApp DT).

(** X8: a reminder that is set and then cleared leaves no job under the
    list's id and an empty stored reminder; the jobs under other ids are
    the ones from before, and the two operations report "Scheduled" and
    "Cleared". *)
Theorem schedule_then_clear s t d run_dt now :
  current s = Some t ->
  dict_get t (lists s) = Some d ->
  dt_compare run_dt now = Some Gt ->
  isoformat run_dt <> "" ->
  let s2 := _clear_reminder_for_current_list
              (_schedule_reminder_for_current_list run_dt now s) in
  scheduler s2 = delete (_job_id_for t) (scheduler s)
  /\ scheduler s2 !! _job_id_for t = None
  /\ dict_get t (lists s2) = Some (mkTaskList (tasks d) "")
  /\ reminder_info s2 = InfoNone
  /\ log s2
     = (log s ++ [MessageBox (DlgScheduled t run_dt); MessageBox DlgCleared])%list.
Proof.
  intros Hc Hd Hgt Hiso s2. subst s2.
  rewrite (schedule_mem s t d run_dt now Hc Hd Hgt).
  unfold _clear_reminder_for_current_list. simpl.
  rewrite dict_get_set_eq. simpl.
  apply truthy_true in Hiso. rewrite Hiso. simpl.
  rewrite try_remove_job_mem, delete_insert_eq, dict_set_set, dict_get_set_eq.
  rewrite lookup_delete_eq, <- app_assoc. done.
Qed.

(** X9: deleting the selected list touches that list and the job under its
    id and nothing else: the other lists keep their entries and their
    order, the jobs under other ids stay, the selection is dropped, the
    label is blank and no message is shown.  Without the confirmation
    nothing changes at all. *)
Theorem delete_touches_one_list s t :
  current s = Some t ->
  let s' := _delete_selected_list true s in
  dict_keys (lists s') = filter (fun t' => t' <> t) (dict_keys (lists s))
  /\ (forall t', t' <> t -> dict_get t' (lists s') = dict_get t' (lists s))
  /\ (forall id, id <> _job_id_for t ->
        scheduler s' !! id = scheduler s !! id)
  /\ current s' = None
  /\ reminder_info s' = InfoBlank
  /\ log s' = log s
  /\ _delete_selected_list false s = s.
Proof.
  intros Hc s'. destruct (delete_mem s t Hc) as (Hl & Hs & Hcur & Hlog).
  fold s' in Hl, Hs, Hcur, Hlog. rewrite Hl, Hs.
  split; [apply dict_keys_pop|].
  split; [intros t' Hne; by apply dict_get_pop_ne|].
  split.
  { intros id Hid. destruct (truthy _); [|done]. by rewrite lookup_delete_ne. }
  split; [done|]. split; [|split; [done|]].
  - subst s'. unfold _delete_selected_list. by rewrite Hc.
  - unfold _delete_selected_list. by rewrite Hc.
Qed.



(** A job fires once.  Firing the id of a job a second time changes
    nothing, whatever the sink and the disk do, and firing an id that holds
    no job changes nothing either: no notification, no write. *)
Theorem fire_is_one_shot s id sink_ok write_ok sink_ok' write_ok' :
  fire id sink_ok' write_ok' (fire id sink_ok write_ok s)
  = fire id sink_ok write_ok s
  /\ (scheduler s !! id = None -> fire id sink_ok write_ok s = s).
Proof.
  assert (E := fire_effect s id sink_ok write_ok). cbv zeta in E.
  split.
  - assert (scheduler (fire id sink_ok write_ok s) !! id = None) as Hgone.
    { destruct (scheduler s !! id) as [j|] eqn:Hj.
      + destruct E as [-> _]. apply lookup_delete_eq.
      + by rewrite E. }
    unfold fire at 1. by rewrite Hgone.
  - intros Hn. by rewrite Hn in E.
Qed.
End MemMore.

Lemma schedule_then_clear_witness :
  scheduler
    (_clear_reminder_for_current_list
       (_schedule_reminder_for_current_list at_18 today errands))
  !! _job_id_for "Errands" = None.
Proof.
  refine (proj1 (proj2 (schedule_then_clear errands "Errands" _ at_18 today
                          errands_current errands_entry _ _)));
    [vm_compute; reflexivity|vm_compute; discriminate].
Defined.

Lemma delete_touches_one_list_witness :
  current (_delete_selected_list true errands) = None
  /\ dict_keys (lists (_delete_selected_list true errands)) = [].
Proof.
  destruct (delete_touches_one_list errands "Errands" errands_current)
    as (Hk & _ & _ & Hcur & _).
  split; [exact Hcur|]. rewrite Hk. vm_compute. reflexivity.
Defined.


(** ** The state after start-up *)

Section MemStartUp.
Context {DT : Type} `{!Datetime DT}.
Implicit Types (sch : JobStore DT) (s : MemApp DT).

(** What one turn of the pass does to the entries, the selection and the
    jobs. *)
Lemma rearm_visit_entries now s title :
  let s' := rearm_visit now s title in
  dict_keys (lists s') = dict_keys (lists s)
  /\ current s' = current s
  /\ (forall t d', dict_get t (lists s') = Some d' ->
        exists d, dict_get t (lists s) = Some d
          /\ tasks d' = tasks d
          /\ (reminder d' = reminder d \/ reminder d' = ""))
  /\ (forall d', dict_get title (lists s') = Some d' -> reminder d' <> "" ->
        exists run_dt,
          fromisoformat (reminder d') = Some run_dt
          /\ dt_compare run_dt now = Some Gt
          /\ scheduler s' !! _job_id_for title = Some (mkJob title run_dt))
  /\ (forall id, is_Some (scheduler s !! id) -> is_Some (scheduler s' !! id))
  /\ (forall id, id <> _job_id_for title ->
        scheduler s' !! id = scheduler s !! id).
Proof.
  intros s'. subst s'.
  destruct (dict_get title (lists s)) as [data|] eqn:Hd.
  2:{ unfold rearm_visit. rewrite Hd. repeat split; eauto. congruence. }
  rewrite (rearm_visit_mem now s title data Hd).
  assert (Hclear :
    let s' := set_lists (dict_set title (with_reminder "" data) (lists s)) s in
    dict_keys (lists s') = dict_keys (lists s)
    /\ current s' = current s
    /\ (forall t d', dict_get t (lists s') = Some d' ->
          exists d, dict_get t (lists s) = Some d
            /\ tasks d' = tasks d
            /\ (reminder d' = reminder d \/ reminder d' = ""))
    /\ (forall d', dict_get title (lists s') = Some d' -> reminder d' <> "" ->
          exists run_dt,
            fromisoformat (reminder d') = Some run_dt
            /\ dt_compare run_dt now = Some Gt
            /\ scheduler s' !! _job_id_for title = Some (mkJob title run_dt))
    /\ (forall id, is_Some (scheduler s !! id) -> is_Some (scheduler s' !! id))
    /\ (forall id, id <> _job_id_for title ->
          scheduler s' !! id = scheduler s !! id)).
  { simpl. split; [apply dict_keys_set_present; by rewrite Hd|].
    split; [done|]. split.
    - intros t d'. rewrite dict_get_set. case_decide as E.
      + subst t. intros [= <-]. exists data. simpl. auto.
      + intros Ht. exists d'. auto.
    - split; [|done]. intros d'. rewrite dict_get_set_eq. by intros [= <-]. }
  destruct (truthy (reminder data)) eqn:Hr.
  2:{ apply truthy_false in Hr. repeat split; eauto.
      intros d'. rewrite Hd. intros [= <-]. done. }
  destruct (fromisoformat (reminder data)) as [run_dt|] eqn:Hp; [|done].
  destruct (dt_compare run_dt now) as [[]|] eqn:Hgt; try done.
  simpl. split; [done|]. split; [done|]. split; [eauto|]. split.
  { intros d'. rewrite Hd. intros [= <-] _. exists run_dt.
    by rewrite lookup_insert_eq. }
  split.
  - intros id. rewrite lookup_insert_is_Some.
    destruct (decide (_job_id_for title = id)); auto.
  - intros id Hid. by rewrite lookup_insert_ne.
Qed.

Lemma rearm_fold_entries now titles s :
  let s' := fold_left (rearm_visit now) titles s in
  dict_keys (lists s') = dict_keys (lists s)
  /\ current s' = current s
  /\ (forall t d', dict_get t (lists s') = Some d' ->
        exists d, dict_get t (lists s) = Some d
          /\ tasks d' = tasks d
          /\ (reminder d' = reminder d \/ reminder d' = "")).
Proof.
  revert s. induction titles as [|title rest IH]; intros s; simpl.
  - split; [done|]. split; [done|]. intros t d' Hd. exists d'. auto.
  - destruct (IH (rearm_visit now s title)) as (Hk & Hc & He).
    destruct (rearm_visit_entries now s title) as (Hk1 & Hc1 & He1 & _).
    split; [congruence|]. split; [congruence|].
    intros t d'' Hd''. destruct (He t d'' Hd'') as (d' & Hd' & Ht' & Hr').
    destruct (He1 t d' Hd') as (d & Hd & Ht & Hr).
    exists d. split; [done|]. split; [congruence|].
    destruct Hr' as [Hr'|Hr']; [|by right].
    rewrite Hr'. done.
Qed.

Lemma rearm_fold_future now titles s :
  (forall t d, dict_get t (lists s) = Some d -> t ∉ titles ->
     reminder d <> "" ->
     exists run_dt,
       fromisoformat (reminder d) = Some run_dt
       /\ dt_compare run_dt now = Some Gt
       /\ is_Some (scheduler s !! _job_id_for t)) ->
  let s' := fold_left (rearm_visit now) titles s in
  forall t d, dict_get t (lists s') = Some d -> reminder d <> "" ->
    exists run_dt,
      fromisoformat (reminder d) = Some run_dt
      /\ dt_compare run_dt now = Some Gt
      /\ is_Some (scheduler s' !! _job_id_for t).
Proof.
  revert s. induction titles as [|title rest IH]; intros s Hs; simpl.
  - intros t d Hd Hr. apply (Hs t d Hd); [apply not_elem_of_nil|done].
  - apply IH. intros t d Hd Hn Hr.
    destruct (rearm_visit_entries now s title)
      as (_ & _ & _ & Hown & Hkeep & _).
    destruct (decide (t = title)) as [->|Hne].
    + destruct (Hown d Hd Hr) as (run_dt & Hp & Hgt & Hj).
      exists run_dt. rewrite Hj. eauto.
    + rewrite rearm_visit_other in Hd by done.
      destruct (Hs t d Hd) as (run_dt & Hp & Hgt & Hj);
        [by apply not_elem_of_cons|done|].
      exists run_dt. auto.
Qed.

(** X11: the application after start-up, whatever the file held.  The
    lists are those of the file, in its order, with their tasks; no list is
    selected and no notification was sent.  Every stored reminder is the
    one of the file or empty, and one that is not empty parses to a time
    strictly after [now] and has a job under the list's id: a reminder that
    was missed, or cannot be read, does not outlive the start. *)
Theorem start_up_state f now :
  let s := start f now in
  let st := match f with Content st => st | _ => [] end in
  dict_keys (lists s) = dict_keys st
  /\ current s = None
  /\ notifications (log s) = 0
  /\ forall t d, dict_get t (lists s) = Some d ->
       (exists d0, dict_get t st = Some d0
          /\ tasks d = tasks d0
          /\ (reminder d = reminder d0 \/ reminder d = ""))
       /\ (reminder d <> "" ->
           exists run_dt,
             fromisoformat (reminder d) = Some run_dt
             /\ dt_compare run_dt now = Some Gt
             /\ is_Some (scheduler s !! _job_id_for t)).
Proof.
  intros s st. subst s. unfold start, init, _schedule_existing_reminders.
  set (s0 := _load_data f _).
  assert (lists s0 = st /\ current s0 = None /\ notifications (log s0) = 0)
    as (Hl0 & Hc0 & Hn0).
  { subst s0 st. by destruct f. }
  destruct (rearm_fold_entries now (dict_keys (lists s0)) s0) as (Hk & Hc & He).
  rewrite <- Hl0, Hk, Hc, rearm_fold_log. split; [done|]. split; [done|].
  split; [done|]. intros t d Hd. split.
  - by apply He.
  - revert t d Hd. apply rearm_fold_future.
    intros t d Ht Hn. exfalso. apply Hn, dict_get_is_Some. by rewrite Ht.
Qed.

Lemma rearm_fold_job_kept now titles s id :
  (forall t, t ∈ titles -> _job_id_for t <> id) ->
  scheduler (fold_left (rearm_visit now) titles s) !! id = scheduler s !! id.
Proof.
  revert s. induction titles as [|title rest IH]; intros s Hn; simpl; [done|].
  rewrite IH by (intros t Ht; apply Hn; by right).
  destruct (rearm_visit_entries now s title) as (_ & _ & _ & _ & _ & Ho).
  apply Ho. apply not_eq_sym, Hn. by left.
Qed.

(** X12: which job is left under an id after the start-up pass.  A list
    whose reminder parses to a time after [now] has its own job under its id
    at the end of the pass provided no list after it in the store has the
    same job id; among lists that share an id the pass leaves the job of
    one that comes later. *)
Theorem rearm_job_survives now s pre title data post run_dt :
  lists s = (pre ++ (title, data) :: post)%list ->
  title ∉ dict_keys pre ->
  reminder data <> "" ->
  fromisoformat (reminder data) = Some run_dt ->
  dt_compare run_dt now = Some Gt ->
  (forall t, t ∈ dict_keys post -> _job_id_for t <> _job_id_for title) ->
  scheduler (_schedule_existing_reminders now s) !! _job_id_for title
  = Some (mkJob title run_dt).
Proof.
  intros Hl Hn Hr Hp Hgt Hpost.
  unfold _schedule_existing_reminders, dict_keys. rewrite Hl.
  rewrite map_app, fold_left_app. simpl.
  rewrite rearm_fold_job_kept by done.
  set (before := fold_left (rearm_visit now) (map fst pre) s).
  assert (Hd : dict_get title (lists before) = Some data).
  { unfold before. rewrite rearm_fold_other by done.
    rewrite Hl. by apply dict_get_middle. }
  rewrite (rearm_visit_mem now before title data Hd).
  apply truthy_true in Hr. rewrite Hr, Hp, Hgt. simpl.
  apply lookup_insert_eq.
Qed.
End MemStartUp.

Lemma rearm_job_survives_witness :
  let loaded st :=
    _load_data (Content st) (mkApp [] (∅ : JobStore Naive.t) None InfoBlank []) in
  scheduler (_schedule_existing_reminders today (loaded saved_store))
    !! _job_id_for "New" = Some (mkJob "New" (Naive.mk 2031 4 8 13 0 0))
  /\ scheduler (_schedule_existing_reminders today (loaded colliding_store))
     !! _job_id_for "a b" = Some (mkJob "a_b" at_18).
Proof.
  intros loaded. split.
  - apply (rearm_job_survives today (loaded saved_store)
             [("Old", mkTaskList ["x"] "2031-04-08T11:59:59")]
             "New" (mkTaskList ["y"] "2031-04-08T13:00:00")
             [("Odd", mkTaskList [] "tomorrow"); ("Free", mkTaskList ["z"] "")]);
      try (vm_compute; reflexivity); try discriminate.
    + apply (bool_decide_unpack _). vm_compute. exact I.
    + apply Forall_forall, (bool_decide_unpack _). vm_compute. exact I.
  - change (_job_id_for "a b") with (_job_id_for "a_b").
    apply (rearm_job_survives today (loaded colliding_store)
             [("a b", mkTaskList [] "2031-04-09T09:00:00")]
             "a_b" (mkTaskList [] "2031-04-09T18:30:00") []);
      try (vm_compute; reflexivity); try discriminate.
    + apply (bool_decide_unpack _). vm_compute. exact I.
    + intros t Ht. by apply elem_of_nil in Ht.
Defined.

(** ** What a run never does *)

Lemma notifications_app {DT} (a b : list (event DT)) :
  notifications (a ++ b) = notifications a + notifications b.
Proof. unfold notifications. by rewrite filter_app, length_app. Qed.

Lemma is_Some_dict_set {V} (t k : string) (v : V) l :
  is_Some (dict_get t l) -> is_Some (dict_get t (dict_set k v l)).
Proof. rewrite dict_get_set. case_decide; eauto. Qed.

Section Summaries.
Context {DT S : Type} `{!Datetime DT} `{!Scheduler DT S}.
Implicit Types s : App DT S.

Lemma summary_refl s n : step_summary s s n.
Proof.
  exists []. rewrite app_nil_r. split; [done|].
  split; [unfold notifications; simpl; lia|]. auto.
Qed.

Lemma summary_trans s1 s2 s3 n m :
  step_summary s1 s2 n -> step_summary s2 s3 m -> step_summary s1 s3 (n + m).
Proof.
  intros (e1 & L1 & N1 & K1) (e2 & L2 & N2 & K2). exists (e1 ++ e2)%list.
  split; [by rewrite L2, L1, app_assoc|].
  split; [rewrite notifications_app; lia|].
  intros H1. destruct (K1 H1) as [H2 F1]. destruct (K2 H2) as [H3 F2].
  split; [done|]. by apply Forall_app.
Qed.

(** A step that kept the selection and every title of the store, and
    logged events that are neither a notification nor a [KeyError]. *)
Lemma summary_quiet s s' evs n :
  log s' = (log s ++ evs)%list ->
  Forall (fun e => is_notification e = false /\ key_error e = false) evs ->
  (selected_ok s -> selected_ok s') ->
  step_summary s s' n.
Proof.
  intros Hl Hq Hsel. exists evs. split; [done|]. split.
  - assert (notifications evs = 0) as ->; [|lia].
    clear Hl. induction Hq as [|e r [He _] _ IH]; [done|].
    unfold notifications in *. rewrite filter_cons_False; [exact IH|].
    rewrite He. discriminate.
  - intros H. split; [auto|]. eapply Forall_impl; [exact Hq|].
    by intros e [_ ?].
Qed.

Lemma summary_emit s e n :
  is_notification e = false ->
  (selected_ok s -> key_error e = false) ->
  step_summary s (emit e s) n.
Proof.
  intros Hn Hk. exists [e]. split; [done|]. split.
  - unfold notifications. rewrite filter_cons_False by (by rewrite Hn).
    simpl. lia.
  - intros H. split; [done|]. repeat constructor. auto.
Qed.

Lemma selected_ok_missing s t :
  current s = Some t -> dict_get t (lists s) = None -> ~ selected_ok s.
Proof. intros Hc Hd H. destruct (H t Hc) as [d ?]. congruence. Qed.

Lemma summary_key_error s t n :
  current s = Some t -> dict_get t (lists s) = None ->
  step_summary s (emit (Uncaught KeyError) s) n.
Proof.
  intros Hc Hd. exists [Uncaught KeyError]. split; [done|].
  split; [unfold notifications; simpl; lia|].
  intros H. by destruct (selected_ok_missing s t Hc Hd).
Qed.

Lemma select_summary s title n : step_summary s (select title s) n.
Proof.
  unfold select. destruct (dict_mem title (lists s)) eqn:Hm;
    [|apply summary_refl].
  destruct (on_list_selected_frame (set_current (Some title) s))
    as (Hl & _ & Hc & Hlog).
  apply (summary_quiet _ _ []); [by rewrite Hlog, app_nil_r|done|].
  intros _ t. rewrite Hc, Hl. simpl. intros [= <-].
  by apply dict_mem_true.
Qed.

Lemma create_summary s title ok n :
  step_summary s (_create_list_dialog title ok s) n.
Proof.
  destruct (create_list_cases s title ok)
    as [[-> _] | [[-> _] | (_ & _ & _ & El & _ & Ec & _ & Elog)]].
  - apply summary_refl.
  - by apply summary_emit.
  - apply (summary_quiet _ _ []); [by rewrite Elog, app_nil_r|done|].
    intros _ t. rewrite Ec, El. intros [= <-]. rewrite dict_get_set_eq. eauto.
Qed.

Lemma add_task_summary s text n :
  step_summary s (_add_task_to_current_list text s) n.
Proof.
  unfold _add_task_to_current_list.
  destruct (current s) as [t|] eqn:Hc; [|by apply summary_emit].
  destruct (truthy text); [|apply summary_refl].
  destruct (dict_get t (lists s)) as [d|] eqn:Hd;
    [|by apply (summary_key_error s t)].
  apply (summary_quiet _ _ []); [by rewrite app_nil_r|done|].
  intros H t'. simpl. intros Ht'. by apply is_Some_dict_set, H.
Qed.

Lemma remove_task_summary s cur n :
  step_summary s (_remove_selected_task cur s) n.
Proof.
  unfold _remove_selected_task.
  destruct (cur <? 0)%Z; [apply summary_refl|].
  destruct (current s) as [t|] eqn:Hc; [|apply summary_refl].
  destruct (dict_get t (lists s)) as [d|] eqn:Hd;
    [|by apply (summary_key_error s t)].
  destruct (tasks d !! Z.to_nat cur) as [removed|];
    [|by apply summary_emit].
  apply (summary_quiet _ _ [MessageBox (DlgRemoved removed)]); [done|..].
  - by repeat constructor.
  - intros H t'. simpl. intros Ht'. by apply is_Some_dict_set, H.
Qed.

Lemma save_summary s write_ok n : step_summary s (_save_data write_ok s) n.
Proof.
  apply (summary_quiet _ _
           [FileWrite (lists s) write_ok;
            MessageBox (if write_ok then DlgSaved else DlgSaveError)]).
  - unfold _save_data. simpl. by rewrite <- app_assoc.
  - by repeat constructor.
  - done.
Qed.

Lemma clear_summary s n :
  step_summary s (_clear_reminder_for_current_list s) n.
Proof.
  unfold _clear_reminder_for_current_list.
  destruct (current s) as [t|] eqn:Hc; [|apply summary_refl].
  destruct (dict_get t (lists s)) as [d|] eqn:Hd;
    [|by apply (summary_key_error s t)].
  destruct (truthy (reminder d)); simpl; [|by apply summary_emit].
  apply (summary_quiet _ _ [MessageBox DlgCleared]); [done|..].
  - by repeat constructor.
  - intros H t'. simpl. intros Ht'. by apply is_Some_dict_set, H.
Qed.

Lemma mark_done_summary s n : step_summary s (_mark_list_done s) n.
Proof.
  unfold _mark_list_done.
  destruct (current s) as [t|] eqn:Hc; [|apply summary_refl].
  destruct (dict_get t (lists s)) as [d|] eqn:Hd;
    [|by apply (summary_key_error s t)].
  match goal with |- context [_on_list_selected ?x] =>
    destruct (on_list_selected_frame x) as (Hl & _ & Hcur & Hlog) end.
  apply (summary_quiet _ _ [MessageBox (DlgDone t)]).
  - simpl. by rewrite Hlog.
  - by repeat constructor.
  - intros H t'. simpl. rewrite Hcur, Hl. simpl. intros Ht'.
    by apply is_Some_dict_set, H.
Qed.

Lemma notify_summary s title sink_ok write_ok :
  step_summary s (notify title sink_ok write_ok s) 1.
Proof.
  destruct (dict_get title (lists s)) as [d|] eqn:Hd.
  - destruct (notify_present s title sink_ok write_ok d Hd)
      as (Hl & _ & Hc & _ & Hlog).
    eexists. split; [exact Hlog|]. split; [unfold notifications; simpl; lia|].
    intros H. split; [|by repeat constructor].
    intros t. rewrite Hc, Hl. intros Ht. by apply is_Some_dict_set, H.
  - rewrite notify_absent by done. eexists. split; [reflexivity|].
    split; [unfold notifications; simpl; lia|].
    intros H. split; [done|by repeat constructor].
Qed.
End Summaries.

Section MemSummaries.
Context {DT : Type} `{!Datetime DT}.
Implicit Types s : MemApp DT.

Lemma delete_summary s confirm n :
  step_summary s (_delete_selected_list confirm s) n.
Proof.
  destruct confirm.
  - destruct (current s) as [t|] eqn:Hc.
    + destruct (delete_mem s t Hc) as (_ & _ & Hcur & Hlog).
      apply (summary_quiet _ _ []); [by rewrite Hlog, app_nil_r|done|].
      intros _ t'. by rewrite Hcur.
    + unfold _delete_selected_list. rewrite Hc. apply summary_refl.
  - unfold _delete_selected_list. destruct (current s); apply summary_refl.
Qed.

Lemma rename_summary s new n : step_summary s (_rename_current_list new s) n.
Proof.
  destruct (current s) as [old|] eqn:Hc.
  2:{ unfold _rename_current_list. rewrite Hc. by apply summary_emit. }
  destruct (truthy new) eqn:Hn.
  2:{ unfold _rename_current_list. rewrite Hc, Hn. by apply summary_emit. }
  destruct (decide (new = old)) as [->|Hne].
  { unfold _rename_current_list. rewrite Hc, Hn. simpl.
    rewrite decide_True by done. apply summary_refl. }
  destruct (dict_get new (lists s)) as [d'|] eqn:Hnew.
  { unfold _rename_current_list. rewrite Hc, Hn. simpl.
    rewrite decide_False by done. unfold dict_mem. rewrite Hnew.
    by apply summary_emit. }
  destruct (dict_get old (lists s)) as [d|] eqn:Hold.
  2:{ unfold _rename_current_list. rewrite Hc, Hn. simpl.
      rewrite decide_False by done. unfold dict_mem. rewrite Hnew, Hold.
      by apply (summary_key_error s old). }
  apply truthy_true in Hn.
  destruct (rename_mem s old new d Hc Hn Hne Hnew Hold)
    as (Hl & _ & Hcur & Hlog).
  apply (summary_quiet _ _ []); [by rewrite Hlog, app_nil_r|done|].
  intros _ t. rewrite Hcur, Hl. intros [= <-]. rewrite dict_get_set_eq. eauto.
Qed.

Lemma schedule_summary s run_dt now n :
  step_summary s (_schedule_reminder_for_current_list run_dt now s) n.
Proof.
  destruct (current s) as [t|] eqn:Hc.
  2:{ unfold _schedule_reminder_for_current_list. rewrite Hc.
      by apply summary_emit. }
  destruct (dt_compare run_dt now) as [[]|] eqn:Hgt;
    try (unfold _schedule_reminder_for_current_list; rewrite Hc, Hgt;
         by apply summary_emit).
  destruct (dict_get t (lists s)) as [d|] eqn:Hd.
  2:{ unfold _schedule_reminder_for_current_list. rewrite Hc, Hgt, Hd.
      by apply (summary_key_error s t). }
  rewrite (schedule_mem s t d run_dt now Hc Hd Hgt).
  apply (summary_quiet _ _ [MessageBox (DlgScheduled t run_dt)]); [done|..].
  - by repeat constructor.
  - intros H t'. simpl. intros [= <-]. rewrite dict_get_set_eq. eauto.
Qed.

Lemma fire_summary s id sink_ok write_ok :
  step_summary s (fire id sink_ok write_ok s) 1.
Proof.
  unfold fire. destruct (scheduler s !! id) as [j|]; [|apply summary_refl].
  destruct (notify_summary (set_scheduler (delete id (scheduler s)) s)
              (job_title j) sink_ok write_ok) as (evs & Hl & Hn & Hk).
  exists evs. split; [done|]. split; [done|]. intros H. by apply Hk.
Qed.

Lemma step_summary_of s o :
  step_summary s (step s o) (if is_fire o then 1 else 0).
Proof.
  destruct o; simpl.
  - apply select_summary.
  - apply create_summary.
  - apply add_task_summary.
  - apply remove_task_summary.
  - apply delete_summary.
  - apply rename_summary.
  - apply schedule_summary.
  - apply clear_summary.
  - apply mark_done_summary.
  - apply save_summary.
  - apply fire_summary.
Qed.

Lemma run_summary s ops : step_summary s (run s ops) (fires ops).
Proof.
  revert s. induction ops as [|o r IH]; intros s; simpl.
  - apply summary_refl.
  - replace (fires (o :: r)) with ((if is_fire o then 1 else 0) + fires r).
    + eapply summary_trans; [apply step_summary_of|apply IH].
    + unfold fires. rewrite filter_cons. by destruct (is_fire o).
Qed.

Lemma start_log f now :
  selected_ok (start f now)
  /\ notifications (log (start f now)) = 0
  /\ Forall (fun e => key_error e = false) (log (start f now)).
Proof.
  unfold start, init, _schedule_existing_reminders.
  set (s0 := _load_data f _).
  destruct (rearm_fold_entries now (dict_keys (lists s0)) s0) as (_ & Hc & _).
  assert (current s0 = None) as Hc0 by (subst s0; by destruct f).
  split; [intros t; by rewrite Hc, Hc0|].
  rewrite rearm_fold_log. subst s0.
  destruct f; simpl; split; try done; by repeat constructor.
Qed.

(** X13: notifications come from firings only.  Along any run the number
    of notifications handed to the sink grows by at most the number of
    [Fire] steps; from start-up on, it is at most that number: neither the
    start-up pass nor any operation of the user sends one. *)
Theorem notifications_only_from_firing s f now ops :
  notifications (log (run s ops)) <= notifications (log s) + fires ops
  /\ notifications (log (run (start f now) ops)) <= fires ops.
Proof.
  assert (forall s0 : MemApp DT,
    notifications (log (run s0 ops)) <= notifications (log s0) + fires ops)
    as Hgen.
  { intros s0. destruct (run_summary s0 ops) as (evs & -> & Hn & _).
    rewrite notifications_app. lia. }
  split; [apply Hgen|].
  specialize (Hgen (start f now)).
  destruct (start_log f now) as (_ & H0 & _). lia.
Qed.

(** X14: from start-up on, the selected item of the sidebar always names a
    list of the store, and so no [KeyError] ever leaves a method: the
    lookups [self.lists[title]] of the handlers cannot fail. *)
Theorem no_key_error_after_start f now ops :
  selected_ok (run (start f now) ops)
  /\ Forall (fun e => key_error e = false) (log (run (start f now) ops)).
Proof.
  destruct (start_log f now) as (Hsel & _ & Hk).
  destruct (run_summary (start f now) ops) as (evs & -> & _ & H).
  destruct (H Hsel) as [Hsel' Hk']. split; [done|]. by apply Forall_app.
Qed.

(** X15: only creating, deleting and renaming change the titles of the
    store: every other step leaves the titles and their order as they
    were. *)
Theorem titles_change_only_by_create_delete_rename s o :
  changes_titles o = false ->
  dict_keys (lists (step s o)) = dict_keys (lists s).
Proof.
  assert (Hset : forall t d d', dict_get t (lists s) = Some d ->
            dict_keys (dict_set t d' (lists s)) = dict_keys (lists s)).
  { intros t d d' Hd. apply dict_keys_set_present. by rewrite Hd. }
  destruct o; simpl; try discriminate; intros _.
  - by destruct (select_effect s title) as (-> & _).
  - destruct (add_task_effect s text)
      as (_ & [-> | (t & d & ts & Hd & ->)]); eauto.
  - destruct (remove_task_effect s cur)
      as (_ & [-> | (t & d & ts & Hd & ->)]); eauto.
  - destruct (schedule_effect s run_dt now)
      as [[-> _] | (t & d & Hd & -> & _)]; eauto.
  - destruct (clear_effect s) as [[-> _] | (t & d & Hd & -> & _)]; eauto.
  - destruct (mark_done_effect s) as [[-> _] | (t & d & Hd & -> & _)]; eauto.
  - done.
  - assert (E := fire_effect s id sink_ok write_ok). cbv zeta in E.
    destruct (scheduler s !! id) as [j|]; [|by rewrite E].
    destruct E as [_ E].
    destruct (dict_get (job_title j) (lists s)) as [d|] eqn:Hd;
      rewrite E; eauto.
Qed.
End MemSummaries.

Lemma titles_change_only_by_create_delete_rename_witness :
  dict_keys (lists (step errands (Fire "reminder__Errands" true true)))
  = dict_keys (lists errands).
Proof.
  exact (titles_change_only_by_create_delete_rename errands
           (Fire "reminder__Errands" true true) eq_refl).
Defined.

(** ** The reminder label *)

Section Label.
Context {DT S : Type} `{!Datetime DT} `{!Scheduler DT S}.
Implicit Types s : App DT S.

Lemma on_list_selected_label s : label_ok (_on_list_selected s).
Proof.
  unfold label_ok.
  destruct (on_list_selected_frame s) as (-> & _ & -> & _).
  unfold _on_list_selected, label_of.
  destruct (current s) as [t|]; [|done].
  destruct (truthy _); [|done].
  by destruct (fromisoformat _).
Qed.

Lemma select_item_label s title : label_ok s -> label_ok (select_item title s).
Proof.
  intros H. unfold select_item. destruct (dict_mem _ _); [|done].
  apply on_list_selected_label.
Qed.

Lemma refresh_sidebar_label s : label_ok s -> label_ok (_refresh_sidebar s).
Proof.
  intros H. unfold _refresh_sidebar. destruct (current s) eqn:Hc; [|done].
  apply on_list_selected_label.
Qed.

Lemma emit_label s e : label_ok s -> label_ok (emit e s).
Proof. done. Qed.

Lemma reminder_of_set_same t k d d' (l : Store) :
  dict_get k l = Some d -> reminder d' = reminder d ->
  reminder_of t (dict_set k d' l) = reminder_of t l.
Proof.
  intros Hd Hr. unfold reminder_of. rewrite dict_get_set.
  case_decide; [subst; by rewrite Hd|done].
Qed.

Lemma create_label s title ok :
  label_ok s -> label_ok (_create_list_dialog title ok s).
Proof.
  intros H. destruct (create_list_cases s title ok)
    as [[-> _] | [[-> _] | (_ & _ & _ & El & _ & Ec & Ei & _)]]; [done..|].
  unfold label_ok. rewrite Ei, Ec, El. unfold reminder_of.
  by rewrite dict_get_set_eq.
Qed.

Lemma add_task_label s text :
  label_ok s -> label_ok (_add_task_to_current_list text s).
Proof.
  intros H. unfold _add_task_to_current_list.
  destruct (current s) as [t|] eqn:Hc; [|done].
  destruct (truthy text); [|done].
  destruct (dict_get t (lists s)) as [d|] eqn:Hd; [|done].
  unfold label_ok in *. simpl. rewrite Hc in *.
  by rewrite (reminder_of_set_same _ _ d).
Qed.

Lemma remove_task_label s cur :
  label_ok s -> label_ok (_remove_selected_task cur s).
Proof.
  intros H. unfold _remove_selected_task.
  destruct (cur <? 0)%Z; [done|].
  destruct (current s) as [t|] eqn:Hc; [|done].
  destruct (dict_get t (lists s)) as [d|] eqn:Hd; [|done].
  destruct (tasks d !! Z.to_nat cur); [|done].
  unfold label_ok in *. simpl. rewrite Hc in *.
  by rewrite (reminder_of_set_same _ _ d).
Qed.

Lemma clear_label s :
  label_ok s -> label_ok (_clear_reminder_for_current_list s).
Proof.
  intros H. unfold _clear_reminder_for_current_list.
  destruct (current s) as [t|] eqn:Hc; [|done].
  destruct (dict_get t (lists s)) as [d|] eqn:Hd; [|done].
  destruct (truthy (reminder d)); simpl; [|done].
  unfold label_ok. simpl. rewrite Hc. unfold reminder_of.
  by rewrite dict_get_set_eq.
Qed.

Lemma mark_done_label s : label_ok s -> label_ok (_mark_list_done s).
Proof.
  intros H. unfold _mark_list_done.
  destruct (current s) as [t|] eqn:Hc; [|done].
  destruct (dict_get t (lists s)) as [d|] eqn:Hd; [|done].
  apply emit_label, on_list_selected_label.
Qed.

Lemma notify_label s title sink_ok write_ok :
  label_ok s -> label_ok (notify title sink_ok write_ok s).
Proof.
  intros H. destruct (dict_get title (lists s)) as [d|] eqn:Hd.
  - destruct (notify_present s title sink_ok write_ok d Hd)
      as (Hl & _ & Hc & Hi & _).
    unfold label_ok in *. rewrite Hi, Hc, Hl.
    destruct (decide (current s = Some title)) as [E|E].
    + rewrite E. unfold reminder_of. by rewrite dict_get_set_eq.
    + rewrite H. destruct (current s) as [t|]; [|done].
      unfold reminder_of. rewrite dict_get_set_ne; [done|]. congruence.
  - by rewrite notify_absent.
Qed.
End Label.

Section MemLabel.
Context {DT : Type} `{!Datetime DT}.
Implicit Types s : MemApp DT.

Lemma delete_label s confirm :
  label_ok s -> label_ok (_delete_selected_list confirm s).
Proof.
  intros H. unfold _delete_selected_list.
  destruct (current s) as [t|] eqn:Hc; [|done].
  destruct confirm; simpl; [|done].
  match goal with |- context [_refresh_sidebar ?x] =>
    destruct (refresh_sidebar_frame x) as (_ & _ & Hcur & _);
    unfold label_ok; simpl; by rewrite Hcur end.
Qed.

Lemma rename_label s new :
  label_ok s -> label_ok (_rename_current_list new s).
Proof.
  intros H. unfold _rename_current_list.
  destruct (current s) as [old|] eqn:Hc; [|done].
  destruct (truthy new); simpl; [|done].
  destruct (decide (new = old)); [done|].
  destruct (dict_mem new (lists s)); [done|].
  destruct (dict_get old (lists s)) as [d|]; [|done].
  cbv zeta. unfold select_item.
  destruct (dict_mem new _); [apply on_list_selected_label|].
  match goal with |- label_ok (_refresh_sidebar ?x) =>
    destruct (refresh_sidebar_frame x) as (_ & _ & Hcur & _);
    assert (Hx : current x = Some old) by done end.
  unfold _refresh_sidebar. rewrite Hx. apply on_list_selected_label.
Qed.

Lemma schedule_label s run_dt now :
  op_ok (Schedule run_dt now) ->
  label_ok s -> label_ok (_schedule_reminder_for_current_list run_dt now s).
Proof.
  intros [Hne Hrt] H.
  destruct (current s) as [t|] eqn:Hc.
  2:{ unfold _schedule_reminder_for_current_list. by rewrite Hc. }
  destruct (dt_compare run_dt now) as [[]|] eqn:Hgt;
    try (unfold _schedule_reminder_for_current_list; by rewrite Hc, Hgt).
  destruct (dict_get t (lists s)) as [d|] eqn:Hd.
  2:{ unfold _schedule_reminder_for_current_list. by rewrite Hc, Hgt, Hd. }
  rewrite (schedule_mem s t d run_dt now Hc Hd Hgt).
  unfold label_ok, reminder_of. simpl. rewrite dict_get_set_eq. simpl.
  unfold label_of. apply truthy_true in Hne. by rewrite Hne, Hrt.
Qed.

Lemma step_label s o : op_ok o -> label_ok s -> label_ok (step s o).
Proof.
  intros Hok H. destruct o; simpl.
  - unfold select. destruct (dict_mem _ _); [|done].
    apply on_list_selected_label.
  - by apply create_label.
  - by apply add_task_label.
  - by apply remove_task_label.
  - by apply delete_label.
  - by apply rename_label.
  - by apply schedule_label.
  - by apply clear_label.
  - by apply mark_done_label.
  - done.
  - unfold fire. destruct (scheduler s !! id); [|done].
    by apply notify_label.
Qed.

Lemma rearm_fold_label now titles s :
  reminder_info (fold_left (rearm_visit now) titles s) = reminder_info s.
Proof.
  revert s. induction titles as [|t r IH]; intros s; simpl; [done|].
  rewrite IH.
  destruct (dict_get t (lists s)) as [data|] eqn:Hd.
  - rewrite (rearm_visit_mem now s t data Hd).
    destruct (truthy _); [|done].
    destruct (fromisoformat _) as [run_dt|]; [|done].
    by destruct (dt_compare run_dt now) as [[]|].
  - unfold rearm_visit. by rewrite Hd.
Qed.

(** X16: from start-up on, the reminder label always shows the stored
    reminder of the selected list: blank when no list is selected, "No
    reminder set" when the stored reminder is empty, the date when it
    parses and "(invalid)" when it does not.  A firing that clears the
    reminder of the selected list, a rename, "Mark Done" and every other
    step keep the label in step with the store. *)
Theorem label_shows_stored_reminder f now ops :
  Forall op_ok ops ->
  label_ok (run (start f now) ops).
Proof.
  intros Hok.
  assert (label_ok (start f now)) as H0.
  { unfold label_ok, start, init, _schedule_existing_reminders.
    set (s0 := _load_data f _).
    destruct (rearm_fold_entries now (dict_keys (lists s0)) s0)
      as (_ & -> & _).
    rewrite rearm_fold_label. subst s0. by destruct f. }
  revert H0. generalize (start f now). induction Hok as [|o r Ho _ IH];
    intros s Hs; simpl; [done|].
  apply IH. by apply step_label.
Qed.
End MemLabel.

Lemma label_shows_stored_reminder_witness :
  label_ok (run (start (Content saved_store) today) calm_ops).
Proof.
  apply label_shows_stored_reminder.
  repeat constructor; try (vm_compute; discriminate);
    vm_compute; reflexivity.
Defined.
